(** * solr-mcp: query building and response normalisation of [SOLRClient]

    A shallow embedding of [src/solr_mcp_server/solr_client.py] (and of the
    configuration record of [config.py] it reads), with the properties of
    the query builder, the connection probe, the error classification and
    the response normaliser stated and proved over it.

    Conventions.
    - A Python [str] is a Rocq [string]; a character is a code point below
      256, which is also the byte CPython stores for it (compact Latin-1
      representation).
    - A Python [int] is a [Z]; a [float] is carried by its [repr], the only
      thing the client ever does with one.
    - A Python [dict] is an association list in insertion order with
      [dict_get]/[dict_set] as its read and write; [str] of a dict depends
      on that order.
    - [try]/[except] is a sum type [result]; code that talks to the engine
      runs in the monad [M], which threads the observable world (number of
      probes made, time slept, log lines). *)

From Stdlib Require Import ZArith List String Ascii Bool Lia QArith.
From Stdlib Require Import DecimalString.
Import ListNotations.

Set Warnings "-register-all".

Local Open Scope list_scope.
Local Open Scope string_scope.
Local Open Scope Z_scope.

(* ================================================================== *)
(** * Python values *)
(* ================================================================== *)

Module Py.

(** What [json.loads] produces, and what travels in keyword arguments. *)
Inductive pyval : Type :=
| PNone  : pyval
| PBool  : bool -> pyval
| PInt   : Z -> pyval
| PFloat : string -> pyval            (* the float's repr *)
| PStr   : string -> pyval
| PList  : list pyval -> pyval
| PDict  : list (string * pyval) -> pyval.

Definition pydict : Type := list (string * pyval).

(** ** Dictionaries *)

Section Dict.
Context {V : Type}.

(** [d.get(k)] *)
Fixpoint dict_get (k : string) (d : list (string * V)) : option V :=
  match d with
  | [] => None
  | (k', v) :: d' => if String.eqb k k' then Some v else dict_get k d'
  end.

(** [k in d] *)
Definition dict_mem (k : string) (d : list (string * V)) : bool :=
  match dict_get k d with Some _ => true | None => false end.

(** [d[k] = v]: an existing key keeps its position, a new one goes last. *)
Fixpoint dict_set (k : string) (v : V) (d : list (string * V))
  : list (string * V) :=
  match d with
  | [] => [(k, v)]
  | (k', v') :: d' =>
      if String.eqb k k' then (k', v) :: d' else (k', v') :: dict_set k v d'
  end.

(** [{**d, **e}] *)
Definition dict_update (d e : list (string * V)) : list (string * V) :=
  fold_left (fun acc kv => dict_set (fst kv) (snd kv) acc) e d.

Definition dict_keys (d : list (string * V)) : list string := map fst d.
End Dict.

(** ** Truthiness *)

Definition truthy_str (s : string) : bool :=
  match s with EmptyString => false | _ => true end.

Definition truthy_list {A} (l : list A) : bool :=
  match l with [] => false | _ => true end.

(** [if x:] for an [Optional[str]] / [Optional[List[_]]] argument. *)
Definition truthy_opt_str (o : option string) : bool :=
  match o with Some s => truthy_str s | None => false end.

Definition truthy_opt_list {A} (o : option (list A)) : bool :=
  match o with Some l => truthy_list l | None => false end.

(** ** [str] and [repr] *)

Definition str_of_Z (z : Z) : string := NilZero.string_of_int (Z.to_int z).

(** [sep.join(l)] *)
Definition join (sep : string) (l : list string) : string :=
  String.concat sep l.

Fixpoint contains_char (c : ascii) (s : string) : bool :=
  match s with
  | EmptyString => false
  | String a s' => if Ascii.eqb a c then true else contains_char c s'
  end.

Definition hex_digit (n : N) : ascii :=
  ascii_of_N (if (n <? 10)%N then 48 + n else 87 + n)%N.

Definition squote : ascii := "'"%char.
Definition dquote : ascii := ascii_of_N 34.
Definition backslash : ascii := "\"%char.

(** [Py_UNICODE_ISPRINTABLE] on the Latin-1 range. *)
Definition printable (n : N) : bool :=
  ((32 <=? n) && (n <? 127) || (161 <=? n) && negb (n =? 173))%N.

Definition repr_char (quote : ascii) (c : ascii) : string :=
  let n := N_of_ascii c in
  if Ascii.eqb c quote || Ascii.eqb c backslash then
    String backslash (String c EmptyString)
  else if (n =? 9)%N then String backslash "t"
  else if (n =? 10)%N then String backslash "n"
  else if (n =? 13)%N then String backslash "r"
  else if printable n then String c EmptyString
  else String backslash
         (String "x" (String (hex_digit (n / 16))
                        (String (hex_digit (n mod 16)) EmptyString))).

Fixpoint repr_chars (quote : ascii) (s : string) : string :=
  match s with
  | EmptyString => EmptyString
  | String c s' => repr_char quote c ++ repr_chars quote s'
  end.

(** [repr(s)] for a string: single quotes, unless the string holds a
    single quote and no double quote. *)
Definition repr_str (s : string) : string :=
  let quote :=
    if contains_char squote s && negb (contains_char dquote s)
    then dquote else squote in
  String quote (repr_chars quote s ++ String quote EmptyString).

Fixpoint repr (v : pyval) : string :=
  match v with
  | PNone => "None"
  | PBool true => "True"
  | PBool false => "False"
  | PInt z => str_of_Z z
  | PFloat r => r
  | PStr s => repr_str s
  | PList l =>
      "[" ++ join ", " ((fix items (l : list pyval) : list string :=
                           match l with
                           | [] => []
                           | x :: l' => repr x :: items l'
                           end) l) ++ "]"
  | PDict d =>
      "{" ++ join ", " ((fix items (d : list (string * pyval)) : list string :=
                           match d with
                           | [] => []
                           | (k, x) :: d' =>
                               (repr_str k ++ ": " ++ repr x) :: items d'
                           end) d) ++ "}"
  end.

(** [str(v)] *)
Definition str (v : pyval) : string :=
  match v with
  | PStr s => s
  | _ => repr v
  end.

(** [isinstance(v, dict)] *)
Definition is_dict (v : pyval) : bool :=
  match v with PDict _ => true | _ => false end.

(** [l[:n]] *)
Definition slice_to {A} (n : Z) (l : list A) : list A :=
  if 0 <=? n then firstn (Z.to_nat n) l
  else firstn (Z.to_nat (Z.of_nat (List.length l) + n)) l.

Fixpoint chars (s : string) : list string :=
  match s with
  | EmptyString => []
  | String c s' => String c EmptyString :: chars s'
  end.

End Py.
Export Py.

(* ================================================================== *)
(** * The interpreter's string hash *)
(* ================================================================== *)

(** [hash(s)] for a [str] is a keyed hash of the string's bytes: SipHash-1-3
    in CPython 3.11 and later (SipHash-2-4 before, keyed the same way),
    with a secret the interpreter draws when the process starts
    ([PYTHONHASHSEED] unset: from the system's random source; set to
    [n > 0]: from a linear congruential generator seeded with [n]; set to
    [0]: all zero). *)
Module PyHash.

Record hash_secret : Type := { k0 : Z; k1 : Z }.

Definition u64 (x : Z) : Z := x mod 2 ^ 64.

Definition rotl (x b : Z) : Z :=
  u64 (Z.lor (Z.shiftl x b) (Z.shiftr x (64 - b))).

Record sipstate : Type := { v0 : Z; v1 : Z; v2 : Z; v3 : Z }.

(** [HALF_ROUND(a,b,c,d,s,t)] returns the new [(a,b,c,d)]. *)
Definition half_round (a b c d s t : Z) : Z * Z * Z * Z :=
  let a := u64 (a + b) in
  let c := u64 (c + d) in
  let b := Z.lxor (rotl b s) a in
  let d := Z.lxor (rotl d t) c in
  let a := rotl a 32 in
  (a, b, c, d).

Definition single_round (st : sipstate) : sipstate :=
  let '(a0, b1, c2, d3) := half_round (v0 st) (v1 st) (v2 st) (v3 st) 13 16 in
  let '(c2, b1, a0, d3) := half_round c2 b1 a0 d3 17 21 in
  {| v0 := a0; v1 := b1; v2 := c2; v3 := d3 |}.

(** Little-endian value of at most eight bytes. *)
Fixpoint le_bytes (bs : list Z) : Z :=
  match bs with
  | [] => 0
  | b :: bs' => b + 256 * le_bytes bs'
  end.

Definition absorb (st : sipstate) (m : Z) : sipstate :=
  let st := {| v0 := v0 st; v1 := v1 st; v2 := v2 st;
               v3 := Z.lxor (v3 st) m |} in
  let st := single_round st in
  {| v0 := Z.lxor (v0 st) m; v1 := v1 st; v2 := v2 st; v3 := v3 st |}.

(** The [while (src_sz >= 8)] loop; returns the state and the tail of
    fewer than eight bytes. *)
Fixpoint blocks (fuel : nat) (st : sipstate) (bs : list Z)
  : sipstate * list Z :=
  match fuel with
  | O => (st, bs)
  | S fuel' =>
      if (8 <=? List.length bs)%nat
      then blocks fuel' (absorb st (le_bytes (firstn 8 bs))) (skipn 8 bs)
      else (st, bs)
  end.

Definition siphash13 (key0 key1 : Z) (bs : list Z) : Z :=
  let b := u64 (Z.shiftl (Z.of_nat (List.length bs)) 56) in
  let st := {| v0 := Z.lxor key0 0x736f6d6570736575;
               v1 := Z.lxor key1 0x646f72616e646f6d;
               v2 := Z.lxor key0 0x6c7967656e657261;
               v3 := Z.lxor key1 0x7465646279746573 |} in
  let '(st, tail) := blocks (List.length bs) st bs in
  let b := Z.lor b (le_bytes tail) in
  let st := absorb st b in
  let st := {| v0 := v0 st; v1 := v1 st;
               v2 := Z.lxor (v2 st) 0xff; v3 := v3 st |} in
  let st := single_round (single_round (single_round st)) in
  Z.lxor (Z.lxor (v0 st) (v1 st)) (Z.lxor (v2 st) (v3 st)).

Fixpoint bytes_of_string (s : string) : list Z :=
  match s with
  | EmptyString => []
  | String c s' => Z.of_N (N_of_ascii c) :: bytes_of_string s'
  end.

(** Conversion of the unsigned result to the signed [Py_hash_t]. *)
Definition to_signed64 (x : Z) : Z :=
  if x <? 2 ^ 63 then x else x - 2 ^ 64.

(** [hash(s)]: the empty string hashes to 0, and -1 is never returned. *)
Definition hash (sec : hash_secret) (s : string) : Z :=
  match s with
  | EmptyString => 0
  | _ =>
      let x := to_signed64 (siphash13 (k0 sec) (k1 sec) (bytes_of_string s)) in
      if x =? -1 then -2 else x
  end.

(** The secret of a process started with [PYTHONHASHSEED=seed]. *)
Fixpoint lcg_urandom (n : nat) (x : Z) : list Z :=
  match n with
  | O => []
  | S n' =>
      let x := (x * 214013 + 2531011) mod 2 ^ 32 in
      Z.land (Z.shiftr x 16) 0xff :: lcg_urandom n' x
  end.

Definition secret_of_seed (seed : Z) : hash_secret :=
  if seed =? 0 then {| k0 := 0; k1 := 0 |}
  else
    let buf := lcg_urandom 24 seed in
    {| k0 := le_bytes (firstn 8 buf);
       k1 := le_bytes (firstn 8 (skipn 8 buf)) |}.

End PyHash.

(* ================================================================== *)
(** * Exceptions and the world the client acts on *)
(* ================================================================== *)

Module Exn.

(** The classes of [Exception] the client meets or raises. Every one of
    them derives from [Exception]; [pysolr.SolrError] is the only one the
    client singles out. *)
Inductive exn_class : Type :=
| SolrError                     (* pysolr.SolrError *)
| AttributeError
| TypeError
| KeyError
| ValidationError               (* pydantic *)
| OtherException (name : string)
| SOLRConnectionError
| SOLRQueryError.

(** An exception instance; [exn_msg] is [str(e)]. *)
Record exn : Type := mk_exn { exn_cls : exn_class; exn_msg : string }.

Inductive result (A : Type) : Type :=
| Ok (a : A)
| Raise (e : exn).
Arguments Ok {A} a.
Arguments Raise {A} e.

Definition rbind {A B} (r : result A) (f : A -> result B) : result B :=
  match r with
  | Ok a => f a
  | Raise e => Raise e
  end.

Definition of_option {A} (e : exn) (o : option A) : result A :=
  match o with Some a => Ok a | None => Raise e end.

Definition is_solr_error (e : exn) : bool :=
  match exn_cls e with SolrError => true | _ => false end.

End Exn.
Export Exn.

Declare Scope result_scope.
Delimit Scope result_scope with result.
Notation "'let*' x ':=' c 'in' k" := (rbind c (fun x => k))
  (at level 10, x name, c at level 100, k at level 200) : result_scope.

Module World.

Inductive level : Type := DEBUG | INFO | WARNING | ERROR.

(** What an observer of the process sees: how many times the engine was
    probed and queried, each [time.sleep] in seconds, and the log. *)
Record world : Type := {
  secret  : PyHash.hash_secret;     (* fixed when the process starts *)
  probes  : nat;
  queries : nat;
  slept   : list Q;
  logged  : list (level * string)
}.

Definition world0 (sec : PyHash.hash_secret) : world :=
  {| secret := sec; probes := 0; queries := 0; slept := []; logged := [] |}.

Definition M (A : Type) : Type := world -> result A * world.

Definition ret {A} (a : A) : M A := fun w => (Ok a, w).
Definition raise {A} (e : exn) : M A := fun w => (Raise e, w).

Definition bind {A B} (m : M A) (f : A -> M B) : M B :=
  fun w =>
    match m w with
    | (Ok a, w') => f a w'
    | (Raise e, w') => (Raise e, w')
    end.

(** [try: m  except Exception as e: h e] *)
Definition try_except {A} (m : M A) (h : exn -> M A) : M A :=
  fun w =>
    match m w with
    | (Ok a, w') => (Ok a, w')
    | (Raise e, w') => h e w'
    end.

Definition lift {A} (r : result A) : M A := fun w => (r, w).

Definition log (l : level) (msg : string) : M unit :=
  fun w => (Ok tt, {| secret := secret w; probes := probes w; queries := queries w;
                      slept := slept w;
                      logged := (logged w ++ [(l, msg)])%list |}).

(** [time.sleep(t)] *)
Definition sleep (t : Q) : M unit :=
  fun w => (Ok tt, {| secret := secret w; probes := probes w; queries := queries w;
                      slept := (slept w ++ [t])%list;
                      logged := logged w |}).

End World.
Export World.

Declare Scope M_scope.
Delimit Scope M_scope with M.
Notation "x <- c ;; k" := (bind c (fun x => k))
  (at level 61, c at next level, right associativity) : M_scope.
Notation "c ;; k" := (bind c (fun _ => k))
  (at level 61, right associativity) : M_scope.

(* ================================================================== *)
(** * Configuration ([config.py]) *)
(* ================================================================== *)

Record SOLRConfig : Type := {
  base_url : string;
  collection : string;
  username : option string;
  password : option string;
  timeout : Z;
  verify_ssl : bool;
  max_rows : Z;
  default_search_field : string;
  facet_limit : Z;
  highlight_enabled : bool
}.

(** [validate_timeout] and [validate_max_rows]: what a constructed
    [SOLRConfig] satisfies. *)
Definition validate_timeout (v : Z) : bool := negb (v <=? 0).

Definition validate_max_rows (v : Z) : bool :=
  negb (v <=? 0) && negb (10000 <? v).

(** The defaults of the [Field] declarations, for a given collection. *)
Definition default_config (coll : string) : SOLRConfig :=
  {| base_url := "http://localhost:8983/solr";
     collection := coll;
     username := None;
     password := None;
     timeout := 30;
     verify_ssl := true;
     max_rows := 1000;
     default_search_field := "text";
     facet_limit := 100;
     highlight_enabled := true |}.

(* ================================================================== *)
(** * The engine as the client sees it ([pysolr]) *)
(* ================================================================== *)

(** [pysolr.Results]: the decoded reply. [res_start] is [None] when the
    object has no [start] attribute; a section of the reply that is
    missing or [None] is the empty dictionary, which the client's tests
    for truth cannot tell apart. *)
Record Results : Type := {
  res_docs : list pydict;
  res_hits : Z;
  res_start : option Z;
  res_qtime : option Z;
  res_highlighting : pydict;
  res_facets : pydict;
  res_spellcheck : pydict
}.

(** A [pysolr.Solr] handle. The engine is outside the program: the
    outcome of the [n]-th probe and of the [n]-th query (with its
    parameters) is whatever the engine and the network make of it. *)
Record Solr : Type := {
  solr_ping : nat -> result unit;
  solr_search : nat -> pydict -> result Results
}.

Definition do_ping (s : Solr) : M unit :=
  fun w => (solr_ping s (probes w),
            {| secret := secret w; probes := S (probes w); queries := queries w;
               slept := slept w; logged := logged w |}).

Definition do_search (s : Solr) (params : pydict) : M Results :=
  fun w => (solr_search s (queries w) params,
            {| secret := secret w; probes := probes w; queries := S (queries w);
               slept := slept w; logged := logged w |}).

(* ================================================================== *)
(** * Result models *)
(* ================================================================== *)

Record SearchResult : Type := {
  sr_id : string;
  sr_score : option string;              (* the float's repr *)
  sr_fields : pydict;
  sr_highlighting : option (list (string * list string))
}.

Record FacetValue : Type := { fv_value : string; fv_count : Z }.

Record FacetField : Type := { ff_name : string; ff_values : list FacetValue }.

Record SearchResponse : Type := {
  results : list SearchResult;
  total_found : Z;
  start : Z;
  rows : Z;
  query_time : option Z;
  facets : option (list FacetField);
  suggestions : option (list (string * list string))
}.

(** The field validators of [pydantic.BaseModel], which the models above
    inherit: what each annotation accepts and what it coerces to is the
    library's business (and differs between its major versions); the
    client relies only on an [int] passing for an [int] field and a [str]
    for a [str] field. *)
Class Pydantic : Type := {
  int_field : pyval -> option Z;
  str_field : pyval -> option string;
  float_field : pyval -> option string;
  str_list_map_field : pyval -> option (list (string * list string));
  int_field_int : forall n, int_field (PInt n) = Some n;
  str_field_str : forall s, str_field (PStr s) = Some s
}.

Definition validation_error (field : string) : exn :=
  mk_exn ValidationError ("1 validation error: " ++ field).

(* ================================================================== *)
(** * Operations on dynamically typed values *)
(* ================================================================== *)

Definition type_name (v : pyval) : string :=
  match v with
  | PNone => "NoneType"
  | PBool _ => "bool"
  | PInt _ => "int"
  | PFloat _ => "float"
  | PStr _ => "str"
  | PList _ => "list"
  | PDict _ => "dict"
  end.

(** [bool(v)] *)
Definition truthy (v : pyval) : bool :=
  match v with
  | PNone => false
  | PBool b => b
  | PInt z => negb (z =? 0)
  | PFloat r => negb (String.eqb r "0.0" || String.eqb r "-0.0")
  | PStr s => truthy_str s
  | PList l => truthy_list l
  | PDict d => truthy_list d
  end.

(** [len(v)] *)
Definition py_len (v : pyval) : result nat :=
  match v with
  | PList l => Ok (List.length l)
  | PDict d => Ok (List.length d)
  | PStr s => Ok (String.length s)
  | _ => Raise (mk_exn TypeError
                  ("object of type '" ++ type_name v ++ "' has no len()"))
  end.

(** [v[i]] for an index [i >= 0] *)
Definition py_getitem (v : pyval) (i : nat) : result pyval :=
  match v with
  | PList l =>
      of_option (mk_exn (OtherException "IndexError")
                   "list index out of range") (nth_error l i)
  | PStr s =>
      match String.get i s with
      | Some c => Ok (PStr (String c EmptyString))
      | None => Raise (mk_exn (OtherException "IndexError")
                         "string index out of range")
      end
  | PDict _ => Raise (mk_exn KeyError (str_of_Z (Z.of_nat i)))
  | _ => Raise (mk_exn TypeError
                  ("'" ++ type_name v ++ "' object is not subscriptable"))
  end.

(** [v.items()] *)
Definition py_items (v : pyval) : result pydict :=
  match v with
  | PDict d => Ok d
  | _ => Raise (mk_exn AttributeError
                  ("'" ++ type_name v ++ "' object has no attribute 'items'"))
  end.

(** [d.get(k, {})] where the key [k] is any value: a list or a dict is
    unhashable, and only a string can equal one of [d]'s keys. *)
Definition py_get_by (k : pyval) (d : pydict) : result pyval :=
  match k with
  | PList _ | PDict _ =>
      Raise (mk_exn TypeError ("unhashable type: '" ++ type_name k ++ "'"))
  | PStr s => Ok (match dict_get s d with Some v => v | None => PDict [] end)
  | _ => Ok (PDict [])
  end.

(** [range(start, stop, step)] for [step >= 1] *)
Fixpoint range_from (fuel start stop step : nat) : list nat :=
  match fuel with
  | O => []
  | S fuel' =>
      if (start <? stop)%nat
      then start :: range_from fuel' (start + step) stop step
      else []
  end.

Definition range (start stop step : nat) : list nat :=
  range_from stop start stop step.

(* ================================================================== *)
(** * The response normaliser: [SOLRClient._process_search_response] *)
(* ================================================================== *)

Section Normalizer.
Context {P : Pydantic}.
Local Open Scope result_scope.

(** [FacetValue(value=..., count=...)] *)
Definition FacetValue_new (value : string) (count : pyval)
  : result FacetValue :=
  match int_field count with
  | Some c => Ok {| fv_value := value; fv_count := c |}
  | None => Raise (validation_error "count")
  end.

(** [SearchResult(id=..., score=..., fields=..., highlighting=...)] *)
Definition SearchResult_new (id : pyval) (score : option pyval)
    (fields : pydict) (highlighting : option pyval) : result SearchResult :=
  match str_field id with
  | None => Raise (validation_error "id")
  | Some i =>
      let* sc := match score with
                 | None | Some PNone => Ok None
                 | Some v => match float_field v with
                             | Some f => Ok (Some f)
                             | None => Raise (validation_error "score")
                             end
                 end in
      let* hl := match highlighting with
                 | None => Ok None
                 | Some v => match str_list_map_field v with
                             | Some h => Ok (Some h)
                             | None => Raise (validation_error "highlighting")
                             end
                 end in
      Ok {| sr_id := i; sr_score := sc; sr_fields := fields;
            sr_highlighting := hl |}
  end.

(** [doc.get("id", str(hash(str(doc))))] *)
Definition doc_id (sec : PyHash.hash_secret) (doc : pydict) : pyval :=
  match dict_get "id" doc with
  | Some v => v
  | None => PStr (str_of_Z (PyHash.hash sec (str (PDict doc))))
  end.

Definition special_field (k : string) : bool :=
  String.eqb k "id" || String.eqb k "score".

(** The body of [for doc in response.docs]. *)
Definition process_doc (sec : PyHash.hash_secret) (response : Results)
    (doc : pydict) : result SearchResult :=
  let id := doc_id sec doc in
  let score := dict_get "score" doc in
  let fields := filter (fun kv => negb (special_field (fst kv))) doc in
  let* highlighting :=
    if truthy (PDict (res_highlighting response)) then
      let* doc_highlighting := py_get_by id (res_highlighting response) in
      Ok (if truthy doc_highlighting then Some doc_highlighting else None)
    else Ok None in
  SearchResult_new id score fields highlighting.

Fixpoint process_docs (sec : PyHash.hash_secret) (response : Results)
    (docs : list pydict) (results : list SearchResult)
  : result (list SearchResult) :=
  match docs with
  | [] => Ok results
  | doc :: docs' =>
      let* r := process_doc sec response doc in
      process_docs sec response docs' (results ++ [r])%list
  end.

(** [for i in range(0, len(field_values), 2)], with [n] the length and
    [idxs] the indices still to visit. *)
Fixpoint facet_values_loop (field_values : pyval) (n : nat)
    (idxs : list nat) (facet_values : list FacetValue)
  : result (list FacetValue) :=
  match idxs with
  | [] => Ok facet_values
  | i :: idxs' =>
      if (i + 1 <? n)%nat then
        let* v := py_getitem field_values i in
        let* c := py_getitem field_values (i + 1) in
        let* fv := FacetValue_new (str v) c in
        facet_values_loop field_values n idxs' (facet_values ++ [fv])%list
      else facet_values_loop field_values n idxs' facet_values
  end.

Definition decode_facet_values (field_values : pyval)
  : result (list FacetValue) :=
  let* n := py_len field_values in
  facet_values_loop field_values n (range 0 n 2) [].

(** [for field_name, field_values in facet_fields.items()] *)
Fixpoint facet_fields_loop (items : pydict) (facets : list FacetField)
  : result (list FacetField) :=
  match items with
  | [] => Ok facets
  | (field_name, field_values) :: items' =>
      let* facet_values := decode_facet_values field_values in
      if truthy_list facet_values then
        facet_fields_loop items'
          (facets ++ [{| ff_name := field_name;
                         ff_values := facet_values |}])%list
      else facet_fields_loop items' facets
  end.

Definition process_facets (response : Results) : result (list FacetField) :=
  if truthy (PDict (res_facets response)) then
    let facet_fields :=
      match dict_get "facet_fields" (res_facets response) with
      | Some v => v
      | None => PDict []
      end in
    let* items := py_items facet_fields in
    facet_fields_loop items []
  else Ok [].

(** [isinstance(suggestion_data, dict) and "suggestion" in suggestion_data] *)
Definition has_suggestion (suggestion_data : pyval) : option pyval :=
  match suggestion_data with
  | PDict d => dict_get "suggestion" d
  | _ => None
  end.

Fixpoint suggestions_loop (items : pydict) (suggestions : pydict) : pydict :=
  match items with
  | [] => suggestions
  | (word, suggestion_data) :: items' =>
      match has_suggestion suggestion_data with
      | Some s => suggestions_loop items' (dict_set word s suggestions)
      | None => suggestions_loop items' suggestions
      end
  end.

Definition process_suggestions (response : Results) : result pydict :=
  if truthy (PDict (res_spellcheck response)) then
    let spellcheck_data :=
      match dict_get "suggestions" (res_spellcheck response) with
      | Some v => v
      | None => PDict []
      end in
    let* items := py_items spellcheck_data in
    Ok (suggestions_loop items [])
  else Ok [].

Definition _process_search_response (sec : PyHash.hash_secret)
    (response : Results) : result SearchResponse :=
  let* results := process_docs sec response (res_docs response) [] in
  let* facets := process_facets response in
  let* suggestions := process_suggestions response in
  let* sugg :=
    if truthy_list suggestions then
      match str_list_map_field (PDict suggestions) with
      | Some m => Ok (Some m)
      | None => Raise (validation_error "suggestions")
      end
    else Ok None in
  Ok {| results := results;
        total_found := res_hits response;
        start := match res_start response with Some s => s | None => 0 end;
        rows := Z.of_nat (List.length results);
        query_time := res_qtime response;
        facets := if truthy_list facets then Some facets else None;
        suggestions := sugg |}.

End Normalizer.

(* ================================================================== *)
(** * The client: [SOLRClient] *)
(* ================================================================== *)

(** The arguments of [SOLRClient.search]. *)
Record SearchRequest : Type := {
  q_query : string;
  q_default_field : option string;
  q_fields : option (list string);
  q_start : Z;
  q_rows : option Z;
  q_sort : option string;
  q_filters : option (list string);
  q_facet_fields : option (list string);
  q_highlight_fields : option (list string);
  q_suggest : bool;
  q_kwargs : pydict
}.

(** A call that passes only the query: every other argument at its
    default. *)
Definition request (query : string) : SearchRequest :=
  {| q_query := query; q_default_field := None; q_fields := None;
     q_start := 0; q_rows := None; q_sort := None; q_filters := None;
     q_facet_fields := None; q_highlight_fields := None;
     q_suggest := false; q_kwargs := [] |}.

Record SOLRClient : Type := {
  config : SOLRConfig;
  _solr : option Solr
}.

(** The value of an optional argument that has passed its [if]. *)
Definition opt_list {A} (o : option (list A)) : list A :=
  match o with Some l => l | None => [] end.

Definition opt_str (o : option string) : string :=
  match o with Some s => s | None => EmptyString end.

Definition cond_set (b : bool) (k : string) (v : pyval) (d : pydict)
  : pydict :=
  if b then dict_set k v d else d.

(** The four highlighting parameters, with the field selector [fl]. *)
Definition set_highlighting (fl : string) (d : pydict) : pydict :=
  dict_set "hl.simple.post" (PStr "</mark>")
    (dict_set "hl.simple.pre" (PStr "<mark>")
       (dict_set "hl.fl" (PStr fl)
          (dict_set "hl" (PStr "true") d))).

(** Lines 219-266 of [search]: the wire parameters of a request. *)
Definition build_search_params (cfg : SOLRConfig) (r : SearchRequest)
  : pydict :=
  let rows := match q_rows r with
              | None => Z.min (max_rows cfg) 100
              | Some n => n
              end in
  let p := dict_update [("q", PStr (q_query r));
                        ("start", PInt (q_start r));
                        ("rows", PInt rows)] (q_kwargs r) in
  let p := if truthy_opt_str (q_default_field r)
           then dict_set "df" (PStr (opt_str (q_default_field r))) p
           else p in
  let p := if truthy_opt_list (q_fields r)
           then dict_set "fl" (PStr (join "," (opt_list (q_fields r)))) p
           else p in
  let p := if truthy_opt_str (q_sort r)
           then dict_set "sort" (PStr (opt_str (q_sort r))) p
           else p in
  let p := if truthy_opt_list (q_filters r)
           then dict_set "fq" (PList (map PStr (opt_list (q_filters r)))) p
           else p in
  let p := if truthy_opt_list (q_facet_fields r)
           then dict_set "facet.mincount" (PInt 1)
                  (dict_set "facet.limit" (PInt (facet_limit cfg))
                     (dict_set "facet.field"
                        (PList (map PStr (opt_list (q_facet_fields r))))
                        (dict_set "facet" (PStr "true") p)))
           else p in
  let p := if truthy_opt_list (q_highlight_fields r) && highlight_enabled cfg
           then set_highlighting
                  (join "," (opt_list (q_highlight_fields r))) p
           else if highlight_enabled cfg
                   && negb (truthy_opt_list (q_highlight_fields r))
           then set_highlighting "*" p
           else p in
  let p := if q_suggest r
           then dict_set "spellcheck.collate" (PStr "true")
                  (dict_set "spellcheck.build" (PStr "true")
                     (dict_set "spellcheck" (PStr "true") p))
           else p in
  p.

Definition none_has_no (attr : string) : exn :=
  mk_exn AttributeError
    ("'NoneType' object has no attribute '" ++ attr ++ "'").

(** [self._solr.ping()] and [self._solr.search(...)]: on a closed client
    [self._solr] is [None]. *)
Definition solr_ping_of (c : SOLRClient) : M unit :=
  match _solr c with
  | Some s => do_ping s
  | None => raise (none_has_no "ping")
  end.

Definition solr_search_of (c : SOLRClient) (params : pydict) : M Results :=
  match _solr c with
  | Some s => do_search s params
  | None => raise (none_has_no "search")
  end.

Section Client.
Context {P : Pydantic}.
Local Open Scope M_scope.

(** [for attempt in range(max_retries)] of [_ping_with_retry], with
    [attempts] the attempts still to make. *)
Fixpoint ping_loop (c : SOLRClient) (max_retries : nat)
    (attempts : list nat) : M unit :=
  match attempts with
  | [] => ret tt
  | attempt :: attempts' =>
      try_except (solr_ping_of c)
        (fun e =>
           if (attempt =? max_retries - 1)%nat then raise e
           else
             log WARNING ("SOLR ping attempt "
                          ++ str_of_Z (Z.of_nat attempt + 1)
                          ++ " failed: " ++ exn_msg e ++ ". Retrying...") ;;
             sleep ((1 # 2) * inject_Z (Z.of_nat attempt + 1)) ;;
             ping_loop c max_retries attempts')
  end.

Definition _ping_with_retry (c : SOLRClient) (max_retries : nat) : M unit :=
  ping_loop c max_retries (range 0 max_retries 1).

Definition default_max_retries : nat := 3.

(** [urljoin(f"{base_url}/", f"{collection}/")] for a collection name
    that is a plain path segment. *)
Definition collection_url (cfg : SOLRConfig) : string :=
  base_url cfg ++ "/" ++ collection cfg ++ "/".

(** [__init__] and [_initialize_connection]. [connect] is the
    [pysolr.Solr(collection_url, auth=, timeout=, verify=, session=)]
    constructor with the session of [_create_session]. *)
Definition auth_of (cfg : SOLRConfig) : option (string * string) :=
  match username cfg, password cfg with
  | Some u, Some p =>
      if truthy_str u && truthy_str p then Some (u, p) else None
  | _, _ => None
  end.

Definition _initialize_connection (cfg : SOLRConfig)
    (connect : string -> option (string * string) -> Z -> bool
               -> result Solr) : M SOLRClient :=
  try_except
    (s <- lift (connect (collection_url cfg) (auth_of cfg)
                  (timeout cfg) (verify_ssl cfg)) ;;
     let c := {| config := cfg; _solr := Some s |} in
     _ping_with_retry c default_max_retries ;;
     log INFO ("Successfully connected to SOLR at " ++ collection_url cfg) ;;
     ret c)
    (fun e =>
       log ERROR ("Failed to connect to SOLR: " ++ exn_msg e) ;;
       raise (mk_exn SOLRConnectionError
                ("Failed to connect to SOLR: " ++ exn_msg e))).

Definition ping (c : SOLRClient) : M bool :=
  try_except
    (match _solr c with
     | Some s => do_ping s ;; ret true
     | None => ret false
     end)
    (fun e => log WARNING ("SOLR ping failed: " ++ exn_msg e) ;; ret false).

Definition search (c : SOLRClient) (r : SearchRequest) : M SearchResponse :=
  try_except
    (let search_params := build_search_params (config c) r in
     log DEBUG ("Executing SOLR search with params: "
                ++ str (PDict search_params)) ;;
     response <- solr_search_of c search_params ;;
     (fun w => (_process_search_response (secret w) response, w)))
    (fun e =>
       if is_solr_error e then
         log ERROR ("SOLR query error: " ++ exn_msg e) ;;
         raise (mk_exn SOLRQueryError ("SOLR query failed: " ++ exn_msg e))
       else
         log ERROR ("Unexpected error during search: " ++ exn_msg e) ;;
         raise (mk_exn SOLRQueryError
                  ("Unexpected error during search: " ++ exn_msg e))).

(** [[s for s in suggestion_data["suggestion"][:count]]] *)
Definition take_suggestions (v : pyval) (count : Z) : result (list pyval) :=
  match v with
  | PList l => Ok (slice_to count l)
  | PStr s => Ok (map PStr (slice_to count (chars s)))
  | PDict _ => Raise (mk_exn TypeError "unhashable type: 'slice'")
  | _ => Raise (mk_exn TypeError
                  ("'" ++ type_name v ++ "' object is not subscriptable"))
  end.

Fixpoint suggest_loop (items : pydict) (count : Z)
    (suggestions : list (string * list pyval))
  : result (list (string * list pyval)) :=
  match items with
  | [] => Ok suggestions
  | (word, suggestion_data) :: items' =>
      match has_suggestion suggestion_data with
      | Some s =>
          rbind (take_suggestions s count)
            (fun l => suggest_loop items' count (dict_set word l suggestions))
      | None => suggest_loop items' count suggestions
      end
  end.

(** The part of [suggest_query] after the reply has arrived. *)
Definition flatten_suggestions (response : Results) (count : Z)
  : result (list (string * list pyval)) :=
  let spellcheck := res_spellcheck response in   (* [or {}] *)
  let data := match dict_get "suggestions" spellcheck with
              | Some v => v
              | None => PDict []
              end in
  rbind (py_items data) (fun items => suggest_loop items count []).

Definition suggest_params (query : string) (count : Z) : pydict :=
  [("q", PStr query); ("rows", PInt 0); ("spellcheck", PStr "true");
   ("spellcheck.count", PInt count); ("spellcheck.build", PStr "true")].

Definition suggest_query (c : SOLRClient) (query : string) (count : Z)
  : M (list (string * list pyval)) :=
  try_except
    (response <- solr_search_of c (suggest_params query count) ;;
     lift (flatten_suggestions response count))
    (fun e => log WARNING ("Failed to get suggestions: " ++ exn_msg e) ;;
              ret []).

Definition get_schema_fields (c : SOLRClient) : M (list string) :=
  try_except
    (response <- solr_search_of c
                   [("q", PStr "*:*"); ("rows", PInt 1); ("fl", PStr "*")] ;;
     match res_docs response with
     | doc :: _ => ret (dict_keys doc)
     | [] => ret []
     end)
    (fun e => log WARNING ("Failed to get schema fields: " ++ exn_msg e) ;;
              ret []).

Definition get_collection_stats (c : SOLRClient) : M pydict :=
  try_except
    (response <- solr_search_of c [("q", PStr "*:*"); ("rows", PInt 0)] ;;
     ret [("total_documents", PInt (res_hits response));
          ("collection_name", PStr (collection (config c)));
          ("solr_url", PStr (base_url (config c)))])
    (fun e => log WARNING ("Failed to get collection stats: " ++ exn_msg e) ;;
              ret []).

Definition close (c : SOLRClient) : M SOLRClient :=
  match _solr c with
  | Some _ =>
      log INFO "SOLR connection closed" ;;
      ret {| config := config c; _solr := None |}
  | None => ret c
  end.

End Client.

(* ================================================================== *)
(** * Vocabulary of the properties *)
(* ================================================================== *)

(** Requests, replies and engines used to state the properties below and
    to run them on concrete inputs. *)

(** The names of [search]'s own parameters. Python binds a keyword with
    one of these names to the parameter, so it never arrives in
    [**kwargs]. *)
Definition parameter_names : list string :=
  ["query"; "default_field"; "fields"; "start"; "rows"; "sort"; "filters";
   "facet_fields"; "highlight_fields"; "suggest"].

Definition kwargs_ok (kw : pydict) : bool :=
  forallb (fun k => negb (dict_mem k kw)) parameter_names.

Definition with_fields (f : option (list string)) (r : SearchRequest)
  : SearchRequest :=
  {| q_query := q_query r; q_default_field := q_default_field r;
     q_fields := f; q_start := q_start r; q_rows := q_rows r;
     q_sort := q_sort r; q_filters := q_filters r;
     q_facet_fields := q_facet_fields r;
     q_highlight_fields := q_highlight_fields r;
     q_suggest := q_suggest r; q_kwargs := q_kwargs r |}.

Definition hl_keys : list string :=
  ["hl"; "hl.fl"; "hl.simple.pre"; "hl.simple.post"].

(** What the parameters say about highlighting: the values under
    [hl], [hl.fl], [hl.simple.pre] and [hl.simple.post]. *)
Definition highlight_params (p : pydict)
  : option pyval * option pyval * option pyval * option pyval :=
  (dict_get "hl" p, dict_get "hl.fl" p,
   dict_get "hl.simple.pre" p, dict_get "hl.simple.post" p).

(** An instance of the validators that coerces nothing (pydantic's strict
    mode, up to [int] for [float]). *)
Module Strict.

Definition as_int (v : pyval) : option Z :=
  match v with PInt n => Some n | _ => None end.

Definition as_str (v : pyval) : option string :=
  match v with PStr s => Some s | _ => None end.

Definition as_float (v : pyval) : option string :=
  match v with
  | PFloat r => Some r
  | PInt n => Some (str_of_Z n ++ ".0")
  | _ => None
  end.

Fixpoint all_str (l : list pyval) : option (list string) :=
  match l with
  | [] => Some []
  | PStr s :: l' => option_map (cons s) (all_str l')
  | _ => None
  end.

Fixpoint all_str_lists (d : pydict) : option (list (string * list string)) :=
  match d with
  | [] => Some []
  | (k, PList l) :: d' =>
      match all_str l, all_str_lists d' with
      | Some l', Some d'' => Some ((k, l') :: d'')
      | _, _ => None
      end
  | _ => None
  end.

Definition as_str_list_map (v : pyval)
  : option (list (string * list string)) :=
  match v with PDict d => all_str_lists d | _ => None end.

Definition pydantic : Pydantic :=
  {| int_field := as_int;
     str_field := as_str;
     float_field := as_float;
     str_list_map_field := as_str_list_map;
     int_field_int := fun n => eq_refl;
     str_field_str := fun s => eq_refl |}.

End Strict.

(** The flat encoding of a facet field with the given buckets:
    [[value_0, count_0, value_1, count_1, ...]]. *)
Fixpoint flat_facet (buckets : list (pyval * Z)) : list pyval :=
  match buckets with
  | [] => []
  | (v, c) :: buckets' => v :: PInt c :: flat_facet buckets'
  end.

Definition bucket (vc : pyval * Z) : FacetValue :=
  {| fv_value := str (fst vc); fv_count := snd vc |}.

(** The facet fields of a reply, as the normaliser iterates over them:
    none when the reply has no facet section. *)
Definition facet_items (response : Results) : pydict :=
  if truthy (PDict (res_facets response)) then
    match dict_get "facet_fields" (res_facets response) with
    | Some (PDict d) => d
    | _ => []
    end
  else [].

Definition nonempty_values (d : string * list FacetValue) : bool :=
  truthy_list (snd d).

(** The facet list built from the decoded fields: those with at least one
    value, in the order of the reply. *)
Definition facet_list (decoded : list (string * list FacetValue))
  : list FacetField :=
  map (fun d => {| ff_name := fst d; ff_values := snd d |})
    (filter nonempty_values decoded).

(** Field [it] of the reply decodes to the values of [d]. *)
Definition decodes_to {P : Pydantic} (it : string * pyval)
    (d : string * list FacetValue) : Prop :=
  fst it = fst d /\ decode_facet_values (snd it) = Ok (snd d).

(** A reply with an empty facet field, a field holding a single unpaired
    element, and one bucket of a third field. *)
Definition facet_reply : Results :=
  {| res_docs := []; res_hits := 7; res_start := None; res_qtime := Some 3;
     res_highlighting := [];
     res_facets :=
       [("facet_fields",
         PDict [("category", PList []);
                ("author", PList [PStr "smith"]);
                ("type", PList [PStr "pdf"; PInt 7])])];
     res_spellcheck := [] |}.

(** A reply of one document that has a title and no [id]. *)
Definition untitled_reply : Results :=
  {| res_docs := [[("title", PStr "a")]]; res_hits := 1;
     res_start := None; res_qtime := None;
     res_highlighting := []; res_facets := []; res_spellcheck := [] |}.

Definition result_ids (r : result SearchResponse) : list string :=
  match r with
  | Ok resp => map sr_id (results resp)
  | Raise _ => []
  end.

(** The flattened suggestions: for each entry of the reply's suggestion
    map that holds a [suggestion] list, the term with the first [count]
    candidates; the other entries are skipped. *)
Fixpoint first_candidates (count : nat) (items : pydict)
  : list (string * list pyval) :=
  match items with
  | [] => []
  | (word, data) :: items' =>
      match has_suggestion data with
      | Some (PList l) => (word, firstn count l) :: first_candidates count items'
      | _ => first_candidates count items'
      end
  end.

(** Every [suggestion] entry of the map is a list. *)
Definition suggestion_lists (items : pydict) : bool :=
  forallb (fun it => match has_suggestion (snd it) with
                     | Some (PList _) | None => true
                     | Some _ => false
                     end) items.

(** An engine that answers every query with the same reply and every
    probe with success. *)
Definition engine_replying (response : Results) : Solr :=
  {| solr_ping := fun _ => Ok tt;
     solr_search := fun _ _ => Ok response |}.

Definition documnt_reply : Results :=
  {| res_docs := []; res_hits := 0; res_start := None; res_qtime := None;
     res_highlighting := []; res_facets := [];
     res_spellcheck :=
       [("suggestions",
         PDict [("documnt",
                 PDict [("suggestion",
                         PList [PStr "document"; PStr "documents";
                                PStr "docent"])])])] |}.

Definition schema_params : pydict :=
  [("q", PStr "*:*"); ("rows", PInt 1); ("fl", PStr "*")].

Definition stats_params : pydict := [("q", PStr "*:*"); ("rows", PInt 0)].

(** An engine that is down: every probe and every query raises. *)
Definition engine_down (msg : string) : Solr :=
  {| solr_ping := fun _ => Raise (mk_exn (OtherException "Exception") msg);
     solr_search := fun _ _ => Raise (mk_exn SolrError msg) |}.

Definition client_of (s : Solr) : SOLRClient :=
  {| config := default_config "docs"; _solr := Some s |}.

(** The failure, if any, met while a search is served: the client was
    closed, the transport or the engine raised, or the reply did not
    pass the normaliser. *)
Definition search_failure {P : Pydantic} (c : SOLRClient)
    (r : SearchRequest) (w : world) : option exn :=
  match _solr c with
  | None => Some (none_has_no "search")
  | Some s =>
      match solr_search s (queries w) (build_search_params (config c) r) with
      | Raise cause => Some cause
      | Ok response =>
          match _process_search_response (secret w) response with
          | Raise cause => Some cause
          | Ok _ => None
          end
      end
  end.

Definition query_error_prefix (cause : exn) : string :=
  if is_solr_error cause then "SOLR query failed: "
  else "Unexpected error during search: ".

Definition wrapped (cause : exn) : exn :=
  mk_exn SOLRQueryError (query_error_prefix cause ++ exn_msg cause).

(** The pause after failed attempt number [attempt] (counted from 0):
    [0.5 * (attempt + 1)] seconds. *)
Definition backoff (attempt : nat) : Q :=
  (1 # 2) * inject_Z (Z.of_nat attempt + 1).

(** The world after a failed probe that is followed by a pause. *)
Definition retried (attempt : nat) (e : exn) (w : world) : world :=
  let msg := "SOLR ping attempt " ++ str_of_Z (Z.of_nat attempt + 1)
             ++ " failed: " ++ exn_msg e ++ ". Retrying..." in
  {| secret := secret w; probes := S (probes w); queries := queries w;
     slept := (slept w ++ [backoff attempt])%list;
     logged := (logged w ++ [(WARNING, msg)])%list |}.

Definition probed (w : world) : world :=
  {| secret := secret w; probes := S (probes w); queries := queries w;
     slept := slept w; logged := logged w |}.

(** ** Requests *)

(** An optional argument that fails its [if] is as good as absent. *)
Definition given_str (o : option string) : option string :=
  if truthy_opt_str o then o else None.

Definition given_list (o : option (list string)) : option (list string) :=
  if truthy_opt_list o then o else None.

(** The request with every empty string and empty list argument replaced
    by [None]. *)
Definition drop_empty (r : SearchRequest) : SearchRequest :=
  {| q_query := q_query r;
     q_default_field := given_str (q_default_field r);
     q_fields := given_list (q_fields r);
     q_start := q_start r; q_rows := q_rows r;
     q_sort := given_str (q_sort r);
     q_filters := given_list (q_filters r);
     q_facet_fields := given_list (q_facet_fields r);
     q_highlight_fields := given_list (q_highlight_fields r);
     q_suggest := q_suggest r; q_kwargs := q_kwargs r |}.

Definition facet_keys : list string :=
  ["facet"; "facet.field"; "facet.limit"; "facet.mincount"].

Definition spellcheck_keys : list string :=
  ["spellcheck"; "spellcheck.build"; "spellcheck.collate"].

(** The values under the faceting keys. *)
Definition facet_params (p : pydict)
  : option pyval * option pyval * option pyval * option pyval :=
  (dict_get "facet" p, dict_get "facet.field" p,
   dict_get "facet.limit" p, dict_get "facet.mincount" p).

(** The values under the spellcheck keys. *)
Definition spellcheck_params (p : pydict)
  : option pyval * option pyval * option pyval :=
  (dict_get "spellcheck" p, dict_get "spellcheck.build" p,
   dict_get "spellcheck.collate" p).

(** A request for more rows than any configuration allows, from a
    negative offset. *)
Definition oversized_request : SearchRequest :=
  {| q_query := "*:*"; q_default_field := None; q_fields := None;
     q_start := -5; q_rows := Some 50000; q_sort := None;
     q_filters := None; q_facet_fields := None;
     q_highlight_fields := None; q_suggest := false;
     q_kwargs := [("wt", PStr "json")] |}.

(** [search("solr", default_field="title", fields=["id"],
    facet_fields=["type"], suggest=True, defType="edismax")] *)
Definition edismax_request : SearchRequest :=
  {| q_query := "solr"; q_default_field := Some "title";
     q_fields := Some ["id"]; q_start := 0; q_rows := None;
     q_sort := None; q_filters := None; q_facet_fields := Some ["type"];
     q_highlight_fields := None; q_suggest := true;
     q_kwargs := [("defType", PStr "edismax")] |}.

(** [search("title:solr", q="*:*")] *)
Definition q_override_request : SearchRequest :=
  {| q_query := "title:solr"; q_default_field := None; q_fields := None;
     q_start := 0; q_rows := None; q_sort := None; q_filters := None;
     q_facet_fields := None; q_highlight_fields := None;
     q_suggest := false; q_kwargs := [("q", PStr "*:*")] |}.

(** ** Replies *)

(** The [id] of a document when it is a string. *)
Definition string_id (doc : pydict) : option string :=
  match dict_get "id" doc with
  | Some (PStr s) => Some s
  | _ => None
  end.

(** The entry of the reply's highlighting section for a document
    identifier: only a string can key one, and an empty entry counts as
    none. *)
Definition highlight_entry (response : Results) (id : pyval)
  : option pyval :=
  match id with
  | PStr s =>
      match dict_get s (res_highlighting response) with
      | Some v => if truthy v then Some v else None
      | None => None
      end
  | _ => None
  end.

(** Decoding by structure: the list is read two elements at a time from
    the left, and the first count the validator rejects ends it. *)
Fixpoint decode_pairs {P : Pydantic} (l : list pyval)
  : result (list FacetValue) :=
  match l with
  | v :: c :: l' =>
      rbind (FacetValue_new (str v) c)
        (fun fv => rbind (decode_pairs l') (fun fvs => Ok (fv :: fvs)))
  | _ => Ok []
  end.

(** The entries of a suggestion map that hold a [suggestion], whatever it
    is, untruncated. *)
Fixpoint all_candidates (items : pydict) : pydict :=
  match items with
  | [] => []
  | (word, data) :: items' =>
      match has_suggestion data with
      | Some s => (word, s) :: all_candidates items'
      | None => all_candidates items'
      end
  end.

(** The suggestion map of a reply, when it is a dictionary. *)
Definition suggestion_items (response : Results) : pydict :=
  match dict_get "suggestions" (res_spellcheck response) with
  | Some (PDict d) => d
  | _ => []
  end.

(** A reply of two documents, the first with highlighting, a score and a
    field, the second with neither; three documents match in all. *)
Definition two_docs_reply : Results :=
  {| res_docs := [[("id", PStr "doc1"); ("score", PFloat "1.5");
                   ("title", PStr "Test Document 1")];
                  [("id", PStr "doc2")]];
     res_hits := 3; res_start := None; res_qtime := Some 5;
     res_highlighting :=
       [("doc1", PDict [("title", PList [PStr "<mark>Test</mark>"])]);
        ("doc2", PDict [])];
     res_facets := [];
     res_spellcheck :=
       [("suggestions",
         PDict [("documnt",
                 PDict [("numFound", PInt 3);
                        ("suggestion",
                         PList [PStr "document"; PStr "documents";
                                PStr "docent"])]);
                ("collation", PStr "document")])] |}.

Definition two_docs_response : SearchResponse :=
  {| results :=
       [ {| sr_id := "doc1"; sr_score := Some "1.5";
            sr_fields := [("title", PStr "Test Document 1")];
            sr_highlighting := Some [("title", ["<mark>Test</mark>"])] |};
         {| sr_id := "doc2"; sr_score := None; sr_fields := [];
            sr_highlighting := None |} ];
     total_found := 3; start := 0; rows := 2; query_time := Some 5;
     facets := None;
     suggestions := Some [("documnt", ["document"; "documents"; "docent"])]
  |}.

(** A reply with a facet field whose second count is not a number. *)
Definition bad_count_reply : Results :=
  {| res_docs := []; res_hits := 0; res_start := None; res_qtime := None;
     res_highlighting := [];
     res_facets :=
       [("facet_fields",
         PDict [("category",
                 PList [PStr "books"; PInt 5; PStr "articles";
                        PStr "many"])])];
     res_spellcheck := [] |}.

(** A reply with the suggestions as the engine's flat list
    [[term, {...}, ...]] instead of a map. *)
Definition list_suggestions_reply : Results :=
  {| res_docs := []; res_hits := 0; res_start := None; res_qtime := None;
     res_highlighting := []; res_facets := [];
     res_spellcheck :=
       [("suggestions",
         PList [PStr "documnt";
                PDict [("suggestion", PList [PStr "document"])]])] |}.

(** ** Worlds and clients *)

(** The traffic with the engine so far, and the pauses made. *)
Definition contact (w : world) : nat * nat * list Q :=
  (probes w, queries w, slept w).

(** The client after [close]. *)
Definition closed (c : SOLRClient) : SOLRClient :=
  {| config := config c; _solr := None |}.

Definition closed_search_error : exn :=
  mk_exn SOLRQueryError
    "Unexpected error during search: 'NoneType' object has no attribute 'search'".

(** An engine that comes up after [n] failed probes. *)
Definition engine_up_after (n : nat) (response : Results) : Solr :=
  {| solr_ping := fun i =>
       if (i <? n)%nat
       then Raise (mk_exn (OtherException "ConnectionError") "refused")
       else Ok tt;
     solr_search := fun _ _ => Ok response |}.

(** A configuration with credentials. *)
Definition config_with_auth (u p : option string) : SOLRConfig :=
  {| base_url := "http://localhost:8983/solr"; collection := "docs";
     username := u; password := p; timeout := 30; verify_ssl := true;
     max_rows := 1000; default_search_field := "text";
     facet_limit := 100; highlight_enabled := true |}.

(* ================================================================== *)
(** * Strings of the configuration: [startswith], [rstrip], [lower],
      [upper], [int] *)
(* ================================================================== *)

Module PyStr.

(** [s.startswith(p)] *)
Definition startswith (p s : string) : bool := String.prefix p s.

(** [s.endswith(c)] for a one-character [c] *)
Fixpoint endswith_char (c : ascii) (s : string) : bool :=
  match s with
  | EmptyString => false
  | String a EmptyString => Ascii.eqb a c
  | String _ s' => endswith_char c s'
  end.

(** [s.rstrip(c)] for a one-character [c] *)
Fixpoint rstrip_char (c : ascii) (s : string) : string :=
  match s with
  | EmptyString => EmptyString
  | String a s' =>
      match rstrip_char c s' with
      | EmptyString => if Ascii.eqb a c then EmptyString
                       else String a EmptyString
      | t => String a t
      end
  end.

Definition slash : ascii := "/"%char.

(** [c * n] *)
Fixpoint repeat_char (c : ascii) (n : nat) : string :=
  match n with
  | O => EmptyString
  | S n' => String c (repeat_char c n')
  end.

(** [s.lower()]: on code points below 256 the letters [A-Z] and the
    accented capitals [0xC0-0xDE] but the multiplication sign move up
    by 32. *)
Definition lower_char (c : ascii) : ascii :=
  let n := N_of_ascii c in
  if ((65 <=? n) && (n <=? 90)
      || (192 <=? n) && (n <=? 222) && negb (n =? 215))%N
  then ascii_of_N (n + 32) else c.

Fixpoint lower (s : string) : string :=
  match s with
  | EmptyString => EmptyString
  | String c s' => String (lower_char c) (lower s')
  end.

(** [s.upper()], as code points: the micro sign and the y with diaeresis
    leave the range, the sharp s becomes two letters. *)
Definition upper_char (c : ascii) : list N :=
  let n := N_of_ascii c in
  if ((97 <=? n) && (n <=? 122)
      || (224 <=? n) && (n <=? 254) && negb (n =? 247))%N
  then [(n - 32)%N]
  else if (n =? 181)%N then [924%N]
  else if (n =? 223)%N then [83%N; 83%N]
  else if (n =? 255)%N then [376%N]
  else [n].

Fixpoint upper (s : string) : list N :=
  match s with
  | EmptyString => []
  | String c s' => (upper_char c ++ upper s')%list
  end.

Fixpoint codes (s : string) : list N :=
  match s with
  | EmptyString => []
  | String c s' => N_of_ascii c :: codes s'
  end.

(** ** [int(s)] *)

(** The characters [int] skips around the number: the ASCII white space
    and, converted to a space beforehand, NEL and the no-break space. *)
Definition int_space (c : ascii) : bool :=
  let n := N_of_ascii c in
  ((9 <=? n) && (n <=? 13) || (n =? 32) || (n =? 133) || (n =? 160))%N.

Definition digit_of (c : ascii) : option Z :=
  let n := N_of_ascii c in
  if ((48 <=? n) && (n <=? 57))%N then Some (Z.of_N n - 48) else None.

Fixpoint lstrip_space (s : string) : string :=
  match s with
  | String c s' => if int_space c then lstrip_space s' else s
  | EmptyString => EmptyString
  end.

Fixpoint all_space (s : string) : bool :=
  match s with
  | String c s' => int_space c && all_space s'
  | EmptyString => true
  end.

Definition underscore : ascii := "_"%char.

(** The digits of the literal, single underscores allowed between two
    digits: the value, the number of digits and what follows. *)
Fixpoint digits_loop (s : string) (acc : Z) (n : nat) : Z * nat * string :=
  match s with
  | EmptyString => (acc, n, EmptyString)
  | String c s' =>
      match digit_of c with
      | Some d => digits_loop s' (10 * acc + d) (S n)
      | None =>
          if Ascii.eqb c underscore then
            match s' with
            | String c2 s'' =>
                match digit_of c2 with
                | Some d => digits_loop s'' (10 * acc + d) (S n)
                | None => (acc, n, s)
                end
            | EmptyString => (acc, n, s)
            end
          else (acc, n, s)
      end
  end.

(** [sys.get_int_max_str_digits()] at its default *)
Definition int_max_str_digits : nat := 4300.

Definition value_error (msg : string) : exn :=
  mk_exn (OtherException "ValueError") msg.

Definition invalid_literal (s : string) : exn :=
  value_error ("invalid literal for int() with base 10: " ++ repr_str s).

Definition exceeds_limit (n : nat) : exn :=
  value_error ("Exceeds the limit (4300 digits) for integer string conversion: value has "
               ++ str_of_Z (Z.of_nat n)
               ++ " digits; use sys.set_int_max_str_digits() to increase the limit").

Definition py_int (s : string) : result Z :=
  let body := lstrip_space s in
  let '(sign, body) :=
    match body with
    | String "+"%char b => (1, b)
    | String "-"%char b => (-1, b)
    | _ => (1, body)
    end in
  match body with
  | String c _ =>
      match digit_of c with
      | Some _ =>
          let '(v, n, rest) := digits_loop body 0 0 in
          if (int_max_str_digits <? n)%nat then Raise (exceeds_limit n)
          else if all_space rest then Ok (sign * v)
          else Raise (invalid_literal s)
      | None => Raise (invalid_literal s)
      end
  | EmptyString => Raise (invalid_literal s)
  end.

End PyStr.
Export PyStr.

(* ================================================================== *)
(** * Validation and loading of the configuration ([config.py]) *)
(* ================================================================== *)

Module ConfigPy.

Record MCPConfig : Type := {
  host : string;
  port : Z;
  log_level : string
}.

Record OllamaConfig : Type := {
  ollama_base_url : string;
  model : string
}.

Record Config : Type := {
  solr : SOLRConfig;
  mcp : MCPConfig;
  ollama : option OllamaConfig
}.

Definition is_http_url (v : string) : bool :=
  startswith "http://" v || startswith "https://" v.

(** The body shared by [SOLRConfig.validate_base_url] and
    [OllamaConfig.validate_base_url], which differ in the name the
    message starts with. *)
Definition validate_url (who v : string) : result string :=
  if negb (is_http_url v) then
    Raise (value_error (who ++ " base URL must start with http:// or https://"))
  else Ok (if endswith_char slash v then rstrip_char slash v else v).

Definition validate_base_url : string -> result string :=
  validate_url "SOLR".

Definition ollama_validate_base_url : string -> result string :=
  validate_url "Ollama".

Definition validate_timeout (v : Z) : result Z :=
  if v <=? 0 then Raise (value_error "Timeout must be positive") else Ok v.

Definition validate_max_rows (v : Z) : result Z :=
  if v <=? 0 then Raise (value_error "Max rows must be positive")
  else if 10000 <? v then
    Raise (value_error
             "Max rows should not exceed 10000 for performance reasons")
  else Ok v.

Definition validate_port (v : Z) : result Z :=
  if negb ((1 <=? v) && (v <=? 65535)) then
    Raise (value_error "Port must be between 1 and 65535")
  else Ok v.

Definition valid_levels : list string :=
  ["DEBUG"; "INFO"; "WARNING"; "ERROR"; "CRITICAL"].

Definition same_codes (l1 l2 : list N) : bool :=
  if list_eq_dec N.eq_dec l1 l2 then true else false.

(** [validate_log_level]. The message lists the levels in the order of
    a Python set, which changes from process to process; here they come
    as written. *)
Definition validate_log_level (v : string) : result string :=
  match find (fun l => same_codes (codes l) (upper v)) valid_levels with
  | Some l => Ok l
  | None =>
      Raise (value_error ("Log level must be one of: "
                          ++ join ", " valid_levels))
  end.

(** What pydantic raises when validators of the named fields fail. *)
Definition validation_errors (fields : list string) : exn :=
  mk_exn ValidationError
    (str_of_Z (Z.of_nat (List.length fields)) ++ " validation error(s): "
     ++ join ", " fields).

Definition failed {A} (field : string) (r : result A) : list string :=
  match r with Ok _ => [] | Raise _ => [field] end.

Definition value_or {A} (r : result A) (d : A) : A :=
  match r with Ok a => a | Raise _ => d end.

(** The constructor [SOLRConfig] applied to the keyword arguments [raw]:
    the validators run field by field, and the errors of all of them are
    raised together. *)
Definition SOLRConfig_new (raw : SOLRConfig) : result SOLRConfig :=
  let b := validate_base_url (base_url raw) in
  let t := validate_timeout (timeout raw) in
  let m := validate_max_rows (max_rows raw) in
  match (failed "base_url" b ++ failed "timeout" t
         ++ failed "max_rows" m)%list with
  | [] =>
      Ok {| base_url := value_or b (base_url raw);
            collection := collection raw;
            username := username raw;
            password := password raw;
            timeout := timeout raw;
            verify_ssl := verify_ssl raw;
            max_rows := max_rows raw;
            default_search_field := default_search_field raw;
            facet_limit := facet_limit raw;
            highlight_enabled := highlight_enabled raw |}
  | errs => Raise (validation_errors errs)
  end.

Definition MCPConfig_new (raw : MCPConfig) : result MCPConfig :=
  let p := validate_port (port raw) in
  let l := validate_log_level (log_level raw) in
  match (failed "port" p ++ failed "log_level" l)%list with
  | [] => Ok {| host := host raw; port := port raw;
                log_level := value_or l (log_level raw) |}
  | errs => Raise (validation_errors errs)
  end.

Definition OllamaConfig_new (raw : OllamaConfig) : result OllamaConfig :=
  match ollama_validate_base_url (ollama_base_url raw) with
  | Ok b => Ok {| ollama_base_url := b; model := model raw |}
  | Raise _ => Raise (validation_errors ["base_url"])
  end.

(** [os.getenv(k, d)] *)
Definition getenv_or (getenv : string -> option string) (k d : string)
  : string :=
  match getenv k with Some v => v | None => d end.

(** [os.getenv(k) or None] *)
Definition getenv_nonempty (getenv : string -> option string) (k : string)
  : option string :=
  match getenv k with
  | Some v => if truthy_str v then Some v else None
  | None => None
  end.

Definition is_true (v : string) : bool := String.eqb (lower v) "true".

(** [Config.from_env], as a function of the environment once the [.env]
    file, if there is one, has been loaded into it. *)
Definition from_env (getenv : string -> option string) : result Config :=
  rbind (py_int (getenv_or getenv "SOLR_TIMEOUT" "30")) (fun timeout_ =>
  rbind (py_int (getenv_or getenv "SOLR_MAX_ROWS" "1000")) (fun max_rows_ =>
  rbind (py_int (getenv_or getenv "SOLR_FACET_LIMIT" "100")) (fun limit_ =>
  rbind (SOLRConfig_new
           {| base_url := getenv_or getenv "SOLR_BASE_URL"
                            "http://localhost:8983/solr";
              collection := getenv_or getenv "SOLR_COLLECTION" EmptyString;
              username := getenv_nonempty getenv "SOLR_USERNAME";
              password := getenv_nonempty getenv "SOLR_PASSWORD";
              timeout := timeout_;
              verify_ssl := is_true (getenv_or getenv "SOLR_VERIFY_SSL"
                                       "true");
              max_rows := max_rows_;
              default_search_field :=
                getenv_or getenv "SOLR_DEFAULT_SEARCH_FIELD" "text";
              facet_limit := limit_;
              highlight_enabled :=
                is_true (getenv_or getenv "SOLR_HIGHLIGHT_ENABLED" "true") |})
    (fun solr_config =>
  if negb (truthy_str (collection solr_config)) then
    Raise (value_error "SOLR_COLLECTION environment variable is required")
  else
  rbind (py_int (getenv_or getenv "MCP_SERVER_PORT" "8080")) (fun port_ =>
  rbind (MCPConfig_new
           {| host := getenv_or getenv "MCP_SERVER_HOST" "localhost";
              port := port_;
              log_level := getenv_or getenv "LOG_LEVEL" "INFO" |})
    (fun mcp_config =>
  let ollama_url := getenv_nonempty getenv "OLLAMA_BASE_URL" in
  let ollama_model := getenv_nonempty getenv "OLLAMA_MODEL" in
  rbind (match ollama_url, ollama_model with
         | None, None => Ok None
         | _, _ =>
             rbind (OllamaConfig_new
                      {| ollama_base_url :=
                           match ollama_url with
                           | Some u => u
                           | None => "http://localhost:11434"
                           end;
                         model := match ollama_model with
                                  | Some m => m
                                  | None => "llama2"
                                  end |})
               (fun o => Ok (Some o))
         end)
    (fun ollama_config =>
  Ok {| solr := solr_config; mcp := mcp_config;
        ollama := ollama_config |}))))))).

(** [get_config] *)
Definition get_config : (string -> option string) -> result Config :=
  from_env.

(** An environment given as a list of variables. *)
Definition env_of (vars : list (string * string)) : string -> option string :=
  fun k => dict_get k vars.


End ConfigPy.

(** The constructor arguments of the tests of [test_config.py]. *)
Definition raw_config (url : string) (t m : Z) : SOLRConfig :=
  {| base_url := url; collection := "test"; username := None;
     password := None; timeout := t; verify_ssl := true; max_rows := m;
     default_search_field := "text"; facet_limit := 100;
     highlight_enabled := true |}.

(** The environment of [test_config_from_env_complete], with an empty
    password. *)
Definition complete_env : list (string * string) :=
  [("SOLR_BASE_URL", "https://solr.example.com:8443/solr/");
   ("SOLR_COLLECTION", "prod_collection");
   ("SOLR_USERNAME", "solr_user");
   ("SOLR_PASSWORD", EmptyString);
   ("SOLR_TIMEOUT", "60");
   ("SOLR_VERIFY_SSL", "false");
   ("MCP_SERVER_HOST", "0.0.0.0");
   ("MCP_SERVER_PORT", "9090");
   ("LOG_LEVEL", "debug");
   ("OLLAMA_MODEL", "llama3")].

Definition complete_config : ConfigPy.Config :=
  {| ConfigPy.solr :=
       {| base_url := "https://solr.example.com:8443/solr";
          collection := "prod_collection";
          username := Some "solr_user"; password := None;
          timeout := 60; verify_ssl := false; max_rows := 1000;
          default_search_field := "text"; facet_limit := 100;
          highlight_enabled := true |};
     ConfigPy.mcp := {| ConfigPy.host := "0.0.0.0"; ConfigPy.port := 9090;
                        ConfigPy.log_level := "DEBUG" |};
     ConfigPy.ollama :=
       Some {| ConfigPy.ollama_base_url := "http://localhost:11434";
               ConfigPy.model := "llama3" |} |}.

Definition default_mcp : ConfigPy.MCPConfig :=
  {| ConfigPy.host := "localhost"; ConfigPy.port := 8080;
     ConfigPy.log_level := "INFO" |}.

(* ================================================================== *)
(** * Facts about dictionaries *)
(* ================================================================== *)

Section DictFacts.
Context {V : Type}.
Implicit Types (d e : list (string * V)) (k : string) (v : V).

Lemma dict_get_set k k' v d :
  dict_get k (dict_set k' v d)
  = if String.eqb k k' then Some v else dict_get k d.
Proof.
  induction d as [| [k0 v0] d IH]; simpl.
  - destruct (String.eqb k k'); reflexivity.
  - destruct (String.eqb k' k0) eqn:E0; simpl.
    + apply String.eqb_eq in E0; subst k0.
      destruct (String.eqb k k'); reflexivity.
    + destruct (String.eqb k k0) eqn:E1.
      * apply String.eqb_eq in E1; subst k0.
        rewrite String.eqb_sym, E0. reflexivity.
      * exact IH.
Qed.

Lemma dict_mem_set k k' v d :
  dict_mem k (dict_set k' v d) = String.eqb k k' || dict_mem k d.
Proof.
  unfold dict_mem. rewrite dict_get_set.
  destruct (String.eqb k k'); reflexivity.
Qed.

Lemma dict_mem_update k d e :
  dict_mem k (dict_update d e) = dict_mem k d || dict_mem k e.
Proof.
  unfold dict_update. revert d.
  induction e as [| [k0 v0] e IH]; intro d; simpl.
  - now rewrite orb_false_r.
  - rewrite IH, dict_mem_set. unfold dict_mem; simpl.
    destruct (String.eqb k k0), (dict_get k d), (dict_get k e);
      reflexivity.
Qed.

Lemma dict_get_update_absent k d e :
  dict_get k e = None -> dict_get k (dict_update d e) = dict_get k d.
Proof.
  unfold dict_update. revert d.
  induction e as [| [k0 v0] e IH]; intros d H; simpl in *.
  - reflexivity.
  - destruct (String.eqb k k0) eqn:E; [discriminate |].
    rewrite (IH _ H), dict_get_set, E. reflexivity.
Qed.

Lemma dict_mem_get_none k d : dict_mem k d = false <-> dict_get k d = None.
Proof. unfold dict_mem. destruct (dict_get k d); split; congruence. Qed.
End DictFacts.

(** Rewrites a lookup through the chain of assignments of the builder. *)
Ltac dict_simpl :=
  repeat (rewrite ?dict_get_set, ?dict_mem_set, ?dict_mem_update; simpl).

(** Splits on every [if] of the builder. *)
Ltac split_ifs :=
  repeat match goal with
         | |- context [if ?b then _ else _] => destruct b eqn:?
         end.

(* ================================================================== *)
(** * The query builder *)
(* ================================================================== *)

Lemma kwargs_ok_rows kw : kwargs_ok kw = true -> dict_get "rows" kw = None.
Proof.
  unfold kwargs_ok, parameter_names. simpl. intro H.
  repeat (apply andb_prop in H; destruct H as [? H]).
  apply dict_mem_get_none. now apply negb_true_iff.
Qed.

(** C10. A request without a row count is sent with
    [rows = min(max_rows, 100)]: the configured maximum only when that is
    below 100, and exactly 100 for every configuration with
    [max_rows >= 100]. *)
Theorem default_rows_is_min_max_rows_100 (cfg : SOLRConfig)
    (r : SearchRequest) :
  q_rows r = None ->
  kwargs_ok (q_kwargs r) = true ->
  dict_get "rows" (build_search_params cfg r)
  = Some (PInt (Z.min (max_rows cfg) 100))
  /\ dict_get "rows" (build_search_params cfg r)
     = Some (PInt (if 100 <=? max_rows cfg then 100 else max_rows cfg)).
Proof.
  intros Hrows Hkw.
  assert (Hget : dict_get "rows" (build_search_params cfg r)
                 = Some (PInt (Z.min (max_rows cfg) 100))).
  { unfold build_search_params, set_highlighting. rewrite Hrows.
    split_ifs; dict_simpl;
      (rewrite dict_get_update_absent by now apply kwargs_ok_rows);
      reflexivity. }
  split; [exact Hget |].
  rewrite Hget. do 2 f_equal.
  destruct (100 <=? max_rows cfg) eqn:E; lia.
Qed.

Lemma default_rows_witness :
  dict_get "rows" (build_search_params (default_config "docs")
                     (request "title:solr"))
  = Some (PInt 100).
Proof.
  apply (default_rows_is_min_max_rows_100 (default_config "docs")
           (request "title:solr")); reflexivity.
Defined.

(** C8. An empty list of fields to return and no list at all build the
    same parameters, and the builder puts no [fl] among them. *)
Theorem empty_fields_same_as_absent (cfg : SOLRConfig) (r : SearchRequest) :
  build_search_params cfg (with_fields (Some []) r)
  = build_search_params cfg (with_fields None r)
  /\ dict_mem "fl" (build_search_params cfg (with_fields None r))
     = dict_mem "fl" (q_kwargs r).
Proof.
  split; [reflexivity |].
  unfold build_search_params, set_highlighting, with_fields; simpl.
  split_ifs; dict_simpl; reflexivity.
Qed.

(** C4. With highlighting enabled in the configuration the parameters
    carry [hl=true], the markers [<mark>] and [</mark>], and as field
    selector the given fields joined by commas, or [*] when none is
    given; with highlighting disabled the builder adds none of the four
    highlighting parameters. *)
Theorem highlighting_parameters (cfg : SOLRConfig) (r : SearchRequest) :
  if highlight_enabled cfg then
    highlight_params (build_search_params cfg r)
    = (Some (PStr "true"),
       Some (PStr (if truthy_opt_list (q_highlight_fields r)
                   then join "," (opt_list (q_highlight_fields r))
                   else "*")),
       Some (PStr "<mark>"), Some (PStr "</mark>"))
  else
    Forall (fun k => dict_mem k (build_search_params cfg r)
                     = dict_mem k (q_kwargs r)) hl_keys.
Proof.
  unfold build_search_params, set_highlighting, highlight_params, hl_keys.
  destruct (highlight_enabled cfg).
  - rewrite andb_true_r. simpl.
    destruct (truthy_opt_list (q_highlight_fields r));
      simpl; split_ifs; dict_simpl; reflexivity.
  - rewrite andb_false_r. simpl.
    repeat constructor; split_ifs; dict_simpl; reflexivity.
Qed.

(* ================================================================== *)
(** * Facet decoding *)
(* ================================================================== *)

Section FacetDecoding.
Context {P : Pydantic}.

Lemma facet_values_loop_flat (trailing : list pyval) :
  (List.length trailing <= 1)%nat ->
  forall (buckets : list (pyval * Z)) (prefix : list pyval) (fuel : nat)
         (acc : list FacetValue),
    (List.length buckets + List.length trailing <= fuel)%nat ->
    let l := (prefix ++ flat_facet buckets ++ trailing)%list in
    facet_values_loop (PList l) (List.length l)
      (range_from fuel (List.length prefix) (List.length l) 2) acc
    = Ok (acc ++ map bucket buckets)%list.
Proof.
  intros Htr buckets.
  induction buckets as [| [v c] buckets IH]; intros prefix fuel acc Hfuel l.
  - subst l. simpl. rewrite app_nil_r.
    destruct trailing as [| x [| y tr]]; simpl in Htr; try lia.
    + rewrite app_nil_r. destruct fuel; simpl; [reflexivity |].
      now rewrite Nat.ltb_irrefl.
    + rewrite length_app. simpl.
      destruct fuel as [| fuel]; simpl; [reflexivity |].
      replace (List.length prefix <? List.length prefix + 1)%nat
        with true by (symmetry; apply Nat.ltb_lt; lia).
      simpl. rewrite Nat.ltb_irrefl.
      destruct fuel; simpl; [reflexivity |].
      replace (List.length prefix + 2 <? List.length prefix + 1)%nat
        with false by (symmetry; apply Nat.ltb_ge; lia).
      reflexivity.
  - destruct fuel as [| fuel]; [simpl in Hfuel; lia |].
    assert (Hl : l = ((prefix ++ [v; PInt c]) ++ flat_facet buckets
                      ++ trailing)%list).
    { subst l. simpl. now rewrite <- app_assoc. }
    assert (Hlen : (List.length prefix + 2 <= List.length l)%nat).
    { subst l. rewrite length_app. simpl. lia. }
    simpl range_from.
    replace (List.length prefix <? List.length l)%nat
      with true by (symmetry; apply Nat.ltb_lt; lia).
    simpl facet_values_loop.
    replace (List.length prefix + 1 <? List.length l)%nat
      with true by (symmetry; apply Nat.ltb_lt; lia).
    assert (Hv : nth_error l (List.length prefix) = Some v).
    { subst l. rewrite nth_error_app2 by lia.
      now rewrite Nat.sub_diag. }
    assert (Hc : nth_error l (List.length prefix + 1) = Some (PInt c)).
    { subst l. rewrite nth_error_app2 by lia.
      replace (List.length prefix + 1 - List.length prefix)%nat
        with 1%nat by lia.
      reflexivity. }
    rewrite Hv, Hc. simpl.
    unfold FacetValue_new. rewrite int_field_int. simpl.
    specialize (IH (prefix ++ [v; PInt c])%list fuel
                  (acc ++ [bucket (v, c)])%list).
    rewrite length_app in IH. simpl in IH.
    rewrite <- Hl in IH.
    simpl in Hfuel.
    change {| fv_value := str v; fv_count := c |} with (bucket (v, c)).
    rewrite IH by lia.
    now rewrite <- app_assoc.
Qed.

(** C1. A facet field that the engine sends as the flat list
    [[value_0, count_0, value_1, count_1, ...]] is decoded, two elements
    at a time and in the order received, to the buckets
    [(str(value_i), count_i)]; one element left over at the end of a
    list of odd length is dropped. *)
Theorem facet_decoding_pairs_in_order (buckets : list (pyval * Z))
    (trailing : list pyval) :
  (List.length trailing <= 1)%nat ->
  decode_facet_values (PList (flat_facet buckets ++ trailing))
  = Ok (map bucket buckets).
Proof.
  intro Htr. unfold decode_facet_values, range. simpl.
  apply (facet_values_loop_flat trailing Htr buckets [] _ []).
  rewrite length_app.
  assert (H : (List.length buckets <= List.length (flat_facet buckets))%nat).
  { clear. induction buckets as [| [v c] b IH]; simpl; lia. }
  lia.
Qed.

End FacetDecoding.

Lemma facet_decoding_witness :
  decode_facet_values (P := Strict.pydantic)
    (PList [PStr "books"; PInt 5; PStr "articles"; PInt 3;
            PStr "papers"; PInt 1; PStr "stray"])
  = Ok [ {| fv_value := "books"; fv_count := 5 |};
         {| fv_value := "articles"; fv_count := 3 |};
         {| fv_value := "papers"; fv_count := 1 |} ].
Proof.
  apply (facet_decoding_pairs_in_order (P := Strict.pydantic)
           [(PStr "books", 5); (PStr "articles", 3); (PStr "papers", 1)]
           [PStr "stray"]).
  simpl. lia.
Defined.

(* ================================================================== *)
(** * Empty facets *)
(* ================================================================== *)

Section EmptyFacets.
Context {P : Pydantic}.

Lemma facet_fields_loop_spec (items : pydict) :
  forall acc fs,
    facet_fields_loop items acc = Ok fs ->
    exists decoded,
      Forall2 decodes_to items decoded
      /\ fs = (acc ++ facet_list decoded)%list.
Proof.
  induction items as [| [name raw] items IH]; intros acc fs H; simpl in H.
  - exists []. split; [constructor |].
    injection H as <-. unfold facet_list. simpl. now rewrite app_nil_r.
  - destruct (decode_facet_values raw) as [vals | e] eqn:Hdec;
      simpl in H; [| discriminate].
    assert (Hhead : decodes_to (name, raw) (name, vals))
      by (split; [reflexivity | exact Hdec]).
    destruct vals as [| fv vals]; simpl in H;
      destruct (IH _ _ H) as (decoded & Hall & ->);
      eexists (_ :: decoded); (split; [constructor; eassumption |]).
    + reflexivity.
    + unfold facet_list. simpl. now rewrite <- app_assoc.
Qed.

Lemma process_facets_spec (response : Results) (fs : list FacetField) :
  process_facets response = Ok fs ->
  exists decoded,
    Forall2 decodes_to (facet_items response) decoded
    /\ fs = facet_list decoded.
Proof.
  unfold process_facets, facet_items. intro H.
  destruct (truthy (PDict (res_facets response))).
  - destruct (dict_get "facet_fields" (res_facets response))
      as [[| | | | | | d] |]; simpl in H; try discriminate.
    + exact (facet_fields_loop_spec d [] fs H).
    + injection H as <-. exists []. split; constructor.
  - injection H as <-. exists []. split; constructor.
Qed.

Lemma facet_list_values_nonempty decoded :
  Forall (fun f => ff_values f <> []) (facet_list decoded).
Proof.
  unfold facet_list. apply Forall_forall. intros f Hin.
  apply in_map_iff in Hin. destruct Hin as ([name vals] & <- & Hin).
  apply filter_In in Hin. destruct Hin as [_ Hne].
  simpl. unfold nonempty_values in Hne. simpl in Hne.
  now destruct vals.
Qed.

(** C5. In a normalised response the facet list holds exactly the facet
    fields of the reply whose decoded value list is not empty, in the
    order of the reply; when there is none (every field decodes to an
    empty list, or the reply has no facet section) the attribute is
    [None], and it is never an empty list. *)
Theorem empty_facets_are_absent (sec : PyHash.hash_secret)
    (response : Results) (resp : SearchResponse) :
  _process_search_response sec response = Ok resp ->
  exists decoded,
    Forall2 decodes_to (facet_items response) decoded
    /\ facets resp = (if existsb nonempty_values decoded
                      then Some (facet_list decoded) else None)
    /\ Forall (fun f => ff_values f <> []) (facet_list decoded)
    /\ facets resp <> Some [].
Proof.
  unfold _process_search_response. intro H.
  destruct (process_docs sec response (res_docs response) [])
    as [rs | e]; simpl in H; [| discriminate].
  destruct (process_facets response) as [fs | e] eqn:Hf;
    simpl in H; [| discriminate].
  destruct (process_suggestions response) as [sg | e];
    simpl in H; [| discriminate].
  destruct (if truthy_list sg then _ else _) as [sugg | e];
    simpl in H; [| discriminate].
  injection H as <-. simpl.
  destruct (process_facets_spec response fs Hf) as (decoded & Hall & ->).
  exists decoded. split; [exact Hall |].
  assert (Hex : truthy_list (facet_list decoded)
                = existsb nonempty_values decoded).
  { unfold facet_list. clear.
    induction decoded as [| d decoded IH]; simpl; [reflexivity |].
    destruct (nonempty_values d); simpl; [reflexivity | exact IH]. }
  rewrite Hex.
  split; [reflexivity |].
  split; [apply facet_list_values_nonempty |].
  destruct (existsb nonempty_values decoded) eqn:E; [| discriminate].
  intro Hc. injection Hc as Hc.
  rewrite Hc in Hex. simpl in Hex. discriminate.
Qed.

End EmptyFacets.

Lemma empty_facets_witness :
  exists decoded,
    Forall2 (decodes_to (P := Strict.pydantic))
      (facet_items facet_reply) decoded
    /\ Some [ {| ff_name := "type";
                 ff_values := [ {| fv_value := "pdf"; fv_count := 7 |} ] |} ]
       = (if existsb nonempty_values decoded
          then Some (facet_list decoded) else None)
    /\ Forall (fun f => ff_values f <> []) (facet_list decoded)
    /\ Some [ {| ff_name := "type";
                 ff_values := [ {| fv_value := "pdf"; fv_count := 7 |} ] |} ]
       <> Some [].
Proof.
  apply (empty_facets_are_absent (P := Strict.pydantic)
           (PyHash.secret_of_seed 0) facet_reply
           {| results := []; total_found := 7; start := 0; rows := 0;
              query_time := Some 3;
              facets := Some [ {| ff_name := "type";
                                  ff_values := [ {| fv_value := "pdf";
                                                    fv_count := 7 |} ] |} ];
              suggestions := None |}).
  reflexivity.
Defined.

(* ================================================================== *)
(** * Identifiers of documents without an [id] *)
(* ================================================================== *)

Lemma doc_id_of_id (sec : PyHash.hash_secret) (doc : pydict) (v : pyval) :
  dict_get "id" doc = Some v -> doc_id sec doc = v.
Proof. unfold doc_id. now intros ->. Qed.

(** Within one process the fallback identifier is a function of the text
    [str(doc)] alone. *)
Lemma doc_id_same_process (sec : PyHash.hash_secret) (d1 d2 : pydict) :
  dict_get "id" d1 = None -> dict_get "id" d2 = None ->
  str (PDict d1) = str (PDict d2) ->
  doc_id sec d1 = doc_id sec d2.
Proof. unfold doc_id. intros -> -> Hs. now rewrite Hs. Qed.

(** C3. The identifier given to a document without [id] is the decimal
    text of [hash(str(doc))], and the interpreter keys that hash with a
    secret drawn per process: the same reply, normalised in a process
    started with [PYTHONHASHSEED=1] and in one started with
    [PYTHONHASHSEED=2], gets two different identifiers. *)
Theorem fallback_id_varies_with_hash_secret :
  dict_get "id" [("title", PStr "a")] = None
  /\ str (PDict [("title", PStr "a")]) = "{'title': 'a'}"
  /\ result_ids (_process_search_response (P := Strict.pydantic)
                   (PyHash.secret_of_seed 1) untitled_reply)
     = ["8600532960016719922"]
  /\ result_ids (_process_search_response (P := Strict.pydantic)
                   (PyHash.secret_of_seed 2) untitled_reply)
     = ["-4832955205418047957"].
Proof. repeat split; vm_compute; reflexivity. Qed.

(* ================================================================== *)
(** * Spelling suggestions: [suggest_query] *)
(* ================================================================== *)

Lemma dict_set_fresh {V} (k : string) (v : V) (d : list (string * V)) :
  ~ In k (dict_keys d) -> dict_set k v d = (d ++ [(k, v)])%list.
Proof.
  induction d as [| [k0 v0] d IH]; simpl; intro H; [reflexivity |].
  destruct (String.eqb k k0) eqn:E.
  - apply String.eqb_eq in E. subst. tauto.
  - f_equal. apply IH. tauto.
Qed.

Lemma suggest_loop_first_candidates (count : Z) (items : pydict) :
  0 <= count ->
  suggestion_lists items = true ->
  forall acc,
    NoDup (dict_keys acc ++ dict_keys items) ->
    suggest_loop items count acc
    = Ok (acc ++ first_candidates (Z.to_nat count) items)%list.
Proof.
  intros Hc. induction items as [| [word data] items IH];
    intros Hok acc Hnd; simpl.
  - now rewrite app_nil_r.
  - simpl in Hok. apply andb_prop in Hok. destruct Hok as [Hd Hok].
    simpl in Hnd.
    pose proof (NoDup_remove_1 _ _ _ Hnd) as Hnd1.
    pose proof (NoDup_remove_2 _ _ _ Hnd) as Hnd2.
    destruct (has_suggestion data) as [[| | | | | l |] |];
      try discriminate; simpl.
    + unfold slice_to.
      replace (0 <=? count) with true by (symmetry; apply Z.leb_le; lia).
      rewrite dict_set_fresh
        by (intro Hin; apply Hnd2, in_or_app; now left).
      rewrite IH; [now rewrite <- app_assoc | exact Hok |].
      unfold dict_keys in *. rewrite map_app. simpl.
      now rewrite <- app_assoc.
    + now apply IH.
Qed.

(** C9. When the engine answers [suggest_query(query, count)] with a
    suggestion map whose [suggestion] entries are lists, the result maps
    each term that has such an entry to its first [count] candidates, in
    the order of the reply, and has no entry for the other terms. *)
Theorem suggest_query_flattens_and_truncates (c : SOLRClient) (s : Solr)
    (query : string) (count : Z) (w : world) (response : Results)
    (items : pydict) :
  _solr c = Some s ->
  solr_search s (queries w) (suggest_params query count) = Ok response ->
  dict_get "suggestions" (res_spellcheck response) = Some (PDict items) ->
  NoDup (dict_keys items) ->
  suggestion_lists items = true ->
  0 <= count ->
  fst (suggest_query c query count w)
  = Ok (first_candidates (Z.to_nat count) items).
Proof.
  intros Hs Hr Hsp Hnd Hok Hc.
  unfold suggest_query, try_except, bind, solr_search_of, do_search, lift.
  rewrite Hs. simpl. rewrite Hr. simpl.
  unfold flatten_suggestions. rewrite Hsp. simpl.
  rewrite (suggest_loop_first_candidates count items Hc Hok [] Hnd).
  reflexivity.
Qed.

Lemma suggest_query_witness :
  fst (suggest_query
         {| config := default_config "docs";
            _solr := Some (engine_replying documnt_reply) |}
         "documnt" 2 (world0 (PyHash.secret_of_seed 0)))
  = Ok [("documnt", [PStr "document"; PStr "documents"])].
Proof.
  apply (suggest_query_flattens_and_truncates
           {| config := default_config "docs";
              _solr := Some (engine_replying documnt_reply) |}
           (engine_replying documnt_reply) "documnt" 2
           (world0 (PyHash.secret_of_seed 0)) documnt_reply
           [("documnt",
             PDict [("suggestion",
                     PList [PStr "document"; PStr "documents";
                            PStr "docent"])])]);
    try reflexivity.
  - repeat constructor. simpl. tauto.
  - lia.
Defined.

(* ================================================================== *)
(** * Failures *)
(* ================================================================== *)

(** Unfolds the monad down to the outcome of the engine. *)
Ltac run_M :=
  unfold try_except, bind, ret, raise, lift, log, solr_search_of,
    solr_ping_of, do_search, do_ping; simpl.

(** C7. [ping], [suggest_query], [get_schema_fields] and
    [get_collection_stats] return a value in every world and for every
    engine, and when the engine's answer is an exception the value is
    [False], the empty mapping, the empty list and the empty map. *)
Theorem best_effort_operations_never_raise (c : SOLRClient)
    (query : string) (count : Z) (w : world) :
  ((exists b, fst (ping c w) = Ok b)
   /\ (exists m, fst (suggest_query c query count w) = Ok m)
   /\ (exists l, fst (get_schema_fields c w) = Ok l)
   /\ (exists d, fst (get_collection_stats c w) = Ok d))
  /\ (forall s, _solr c = Some s ->
        (forall e, solr_ping s (probes w) = Raise e ->
                   fst (ping c w) = Ok false)
        /\ (forall e, solr_search s (queries w) (suggest_params query count)
                      = Raise e ->
                      fst (suggest_query c query count w) = Ok [])
        /\ (forall e, solr_search s (queries w) schema_params = Raise e ->
                      fst (get_schema_fields c w) = Ok [])
        /\ (forall e, solr_search s (queries w) stats_params = Raise e ->
                      fst (get_collection_stats c w) = Ok [])).
Proof.
  split.
  - repeat split.
    + unfold ping. run_M. destruct (_solr c) as [s |]; simpl.
      * destruct (solr_ping s (probes w)); simpl; eauto.
      * eauto.
    + unfold suggest_query. run_M. destruct (_solr c) as [s |]; simpl.
      * destruct (solr_search s (queries w) _) as [response | e]; simpl.
        -- destruct (flatten_suggestions response count); simpl; eauto.
        -- eauto.
      * eauto.
    + unfold get_schema_fields. run_M. destruct (_solr c) as [s |]; simpl.
      * destruct (solr_search s (queries w) _) as [response | e]; simpl.
        -- destruct (res_docs response); simpl; eauto.
        -- eauto.
      * eauto.
    + unfold get_collection_stats. run_M.
      destruct (_solr c) as [s |]; simpl.
      * destruct (solr_search s (queries w) _) as [response | e]; simpl;
          eauto.
      * eauto.
  - intros s Hs. repeat split; intros e He.
    + unfold ping. run_M. rewrite Hs. simpl. now rewrite He.
    + unfold suggest_query. run_M. rewrite Hs. simpl. now rewrite He.
    + unfold get_schema_fields. run_M. rewrite Hs. simpl.
      unfold schema_params in He. now rewrite He.
    + unfold get_collection_stats. run_M. rewrite Hs. simpl.
      unfold stats_params in He. now rewrite He.
Qed.

Lemma best_effort_witness :
  fst (ping (client_of (engine_down "Ping failed"))
         (world0 (PyHash.secret_of_seed 0))) = Ok false
  /\ fst (suggest_query (client_of (engine_down "Ping failed")) "documnt" 5
            (world0 (PyHash.secret_of_seed 0))) = Ok []
  /\ fst (get_schema_fields (client_of (engine_down "Ping failed"))
            (world0 (PyHash.secret_of_seed 0))) = Ok []
  /\ fst (get_collection_stats (client_of (engine_down "Ping failed"))
            (world0 (PyHash.secret_of_seed 0))) = Ok [].
Proof.
  destruct (proj2 (best_effort_operations_never_raise
                     (client_of (engine_down "Ping failed")) "documnt" 5
                     (world0 (PyHash.secret_of_seed 0)))
              (engine_down "Ping failed") eq_refl)
    as (Hping & Hsuggest & Hschema & Hstats).
  exact (conj (Hping _ eq_refl)
           (conj (Hsuggest _ eq_refl)
              (conj (Hschema _ eq_refl) (Hstats _ eq_refl)))).
Defined.

Section SearchFailures.
Context {P : Pydantic}.

Lemma search_outcome (c : SOLRClient) (r : SearchRequest) (w : world) :
  match search_failure c r w with
  | Some cause => fst (search c r w) = Raise (wrapped cause)
  | None => exists resp, fst (search c r w) = Ok resp
  end.
Proof.
  unfold search_failure, search, wrapped, query_error_prefix. run_M.
  destruct (_solr c) as [s |]; simpl; [| reflexivity].
  destruct (solr_search s (queries w) _) as [response | cause]; simpl.
  - destruct (_process_search_response (secret w) response)
      as [resp | cause]; simpl.
    + now exists resp.
    + destruct (is_solr_error cause); reflexivity.
  - destruct (is_solr_error cause); reflexivity.
Qed.

(** C6. Whatever fails while a search is served (an exception of the
    transport, an error reported by the engine, a reply the normaliser
    rejects), [search] raises [SOLRQueryError] with the cause's message
    appended to a fixed prefix, and it raises nothing else. *)
Theorem search_raises_only_query_error (c : SOLRClient)
    (r : SearchRequest) (w : world) :
  (forall s cause,
      _solr c = Some s ->
      solr_search s (queries w) (build_search_params (config c) r)
      = Raise cause ->
      fst (search c r w)
      = Raise (mk_exn SOLRQueryError
                 ((if is_solr_error cause then "SOLR query failed: "
                   else "Unexpected error during search: ")
                  ++ exn_msg cause)))
  /\ (forall e,
        fst (search c r w) = Raise e ->
        exn_cls e = SOLRQueryError
        /\ exists cause,
             search_failure c r w = Some cause
             /\ exn_msg e = query_error_prefix cause ++ exn_msg cause).
Proof.
  pose proof (search_outcome c r w) as H.
  split.
  - intros s cause Hs Hr. unfold search_failure in H.
    rewrite Hs, Hr in H. exact H.
  - intros e He.
    destruct (search_failure c r w) as [cause |].
    + rewrite H in He. injection He as <-.
      split; [reflexivity |]. now exists cause.
    + destruct H as [resp H]. rewrite H in He. discriminate.
Qed.

End SearchFailures.

Lemma search_failure_witness :
  fst (search (P := Strict.pydantic) (client_of (engine_down "timed out"))
         (request "title:solr") (world0 (PyHash.secret_of_seed 0)))
  = Raise (mk_exn SOLRQueryError "SOLR query failed: timed out").
Proof.
  exact (proj1 (search_raises_only_query_error (P := Strict.pydantic)
                  (client_of (engine_down "timed out"))
                  (request "title:solr")
                  (world0 (PyHash.secret_of_seed 0)))
           (engine_down "timed out")
           (mk_exn SolrError "timed out") eq_refl eq_refl).
Defined.

(* ================================================================== *)
(** * The connection probe *)
(* ================================================================== *)

Lemma backoff_increasing (a b : nat) :
  (a < b)%nat -> (backoff a < backoff b)%Q.
Proof.
  intro H. unfold backoff.
  apply Qmult_lt_l; [reflexivity |].
  rewrite <- Zlt_Qlt. lia.
Qed.

Lemma range_from_seq (fuel a stop : nat) :
  (stop - a <= fuel)%nat -> range_from fuel a stop 1 = seq a (stop - a).
Proof.
  revert a. induction fuel as [| fuel IH]; intros a H; simpl.
  - replace (stop - a)%nat with 0%nat by lia. reflexivity.
  - destruct (a <? stop)%nat eqn:E.
    + apply Nat.ltb_lt in E.
      replace (stop - a)%nat with (S (stop - (a + 1))) by lia.
      simpl. f_equal. rewrite IH by lia. f_equal. lia.
    + apply Nat.ltb_ge in E.
      replace (stop - a)%nat with 0%nat by lia. reflexivity.
Qed.

Lemma range_seq (n : nat) : range 0 n 1 = seq 0 n.
Proof.
  unfold range. rewrite range_from_seq by lia. now rewrite Nat.sub_0_r.
Qed.

Section Probe.
Variables (c : SOLRClient) (s : Solr).
Hypothesis client_open : _solr c = Some s.

(** However the engine answers, a run of the loop probes it at most once
    per attempt. *)
Lemma ping_loop_bounded (max_retries : nat) (attempts : list nat) :
  forall w,
    (probes (snd (ping_loop c max_retries attempts w))
     <= probes w + List.length attempts)%nat.
Proof.
  induction attempts as [| a attempts IH]; intro w; simpl.
  - lia.
  - run_M. rewrite client_open. simpl.
    destruct (solr_ping s (probes w)) as [[] | e]; simpl; [lia |].
    destruct (a =? max_retries - 1)%nat; simpl; [lia |].
    match goal with
    | |- context [ping_loop c max_retries attempts ?w'] =>
        specialize (IH w'); simpl in IH
    end.
    unfold sleep in *. simpl in *. lia.
Qed.

Lemma ping_loop_failed_probe (max_retries attempt : nat)
    (attempts : list nat) (e : exn) (w : world) :
  solr_ping s (probes w) = Raise e ->
  ping_loop c max_retries (attempt :: attempts) w
  = if (attempt =? max_retries - 1)%nat then (Raise e, probed w)
    else ping_loop c max_retries attempts (retried attempt e w).
Proof.
  intro H. simpl. run_M. rewrite client_open. simpl. rewrite H.
  destruct (attempt =? max_retries - 1)%nat; reflexivity.
Qed.

Variable err : nat -> exn.
Hypothesis all_probes_fail : forall n, solr_ping s n = Raise (err n).

(** With every probe failing, the [k] last attempts of [max_retries]
    probe [k] times, pause after each but the last, and end with the
    last probe's exception. *)
Lemma ping_loop_all_fail (max_retries : nat) :
  forall (k a : nat) (w : world),
    (a + S k = max_retries)%nat ->
    exists w',
      ping_loop c max_retries (seq a (S k)) w
      = (Raise (err (probes w + k)), w')
      /\ probes w' = (probes w + S k)%nat
      /\ queries w' = queries w
      /\ slept w' = (slept w ++ map backoff (seq a k))%list.
Proof.
  induction k as [| k IH]; intros a w Hmax.
  - change (seq a 1) with [a].
    rewrite (ping_loop_failed_probe _ _ _ _ _ (all_probes_fail _)).
    replace (a =? max_retries - 1)%nat with true
      by (symmetry; apply Nat.eqb_eq; lia).
    rewrite Nat.add_0_r.
    eexists. split; [reflexivity |]. simpl. repeat split.
    + lia.
    + now rewrite app_nil_r.
  - change (seq a (S (S k))) with (a :: seq (S a) (S k)).
    rewrite (ping_loop_failed_probe _ _ _ _ _ (all_probes_fail _)).
    replace (a =? max_retries - 1)%nat with false
      by (symmetry; apply Nat.eqb_neq; lia).
    destruct (IH (S a) (retried a (err (probes w)) w) ltac:(lia))
      as (w' & Hrun & Hp & Hq & Hs).
    exists w'. rewrite Hrun. cbn [retried probes queries slept] in *.
    repeat split.
    + do 3 f_equal. lia.
    + lia.
    + exact Hq.
    + rewrite Hs, <- app_assoc. reflexivity.
Qed.

End Probe.

(** C2. When the client is constructed and every probe of the engine
    fails, the engine is probed exactly 3 times, the client pauses 0.5 s
    after the first failure and 1 s after the second (0.5 s times the
    number of the attempt, strictly increasing) and not after the third,
    and the construction raises [SOLRConnectionError]. *)
Theorem connection_init_retries_then_fails (cfg : SOLRConfig)
    (connect : string -> option (string * string) -> Z -> bool -> result Solr)
    (s : Solr) (err : nat -> exn) (w : world) :
  connect (collection_url cfg) (auth_of cfg) (timeout cfg) (verify_ssl cfg)
  = Ok s ->
  (forall n, solr_ping s n = Raise (err n)) ->
  exists w',
    _initialize_connection cfg connect w
    = (Raise (mk_exn SOLRConnectionError
                ("Failed to connect to SOLR: "
                 ++ exn_msg (err (probes w + 2)%nat))), w')
    /\ probes w' = (probes w + 3)%nat
    /\ slept w' = (slept w ++ [backoff 0; backoff 1])%list
    /\ (backoff 0 == 1 # 2)%Q /\ (backoff 1 == 1)%Q
    /\ (backoff 0 < backoff 1)%Q.
Proof.
  intros Hconn Hfail.
  destruct (ping_loop_all_fail {| config := cfg; _solr := Some s |} s
              eq_refl err Hfail 3 2 0 w eq_refl)
    as (w1 & Hrun & Hp & Hq & Hs).
  unfold _initialize_connection, _ping_with_retry, default_max_retries.
  rewrite range_seq.
  unfold try_except, bind, lift at 1. rewrite Hconn.
  rewrite Hrun. unfold log, raise. simpl.
  eexists. split; [reflexivity |]. simpl.
  split; [exact Hp |]. split; [exact Hs |].
  split; [reflexivity |]. split; [reflexivity |].
  apply backoff_increasing. lia.
Qed.

Lemma connection_init_witness :
  exists w',
    _initialize_connection (default_config "docs")
      (fun _ _ _ _ => Ok (engine_down "Connection failed"))
      (world0 (PyHash.secret_of_seed 0))
    = (Raise (mk_exn SOLRConnectionError
                "Failed to connect to SOLR: Connection failed"), w')
    /\ probes w' = 3%nat
    /\ slept w' = [backoff 0; backoff 1]
    /\ (backoff 0 == 1 # 2)%Q /\ (backoff 1 == 1)%Q
    /\ (backoff 0 < backoff 1)%Q.
Proof.
  exact (connection_init_retries_then_fails (default_config "docs")
           (fun _ _ _ _ => Ok (engine_down "Connection failed"))
           (engine_down "Connection failed")
           (fun _ => mk_exn (OtherException "Exception") "Connection failed")
           (world0 (PyHash.secret_of_seed 0))
           eq_refl (fun _ => eq_refl)).
Defined.

(* ================================================================== *)
(** * The unit tests of the repository, run on the model *)
(* ================================================================== *)

(** [test_search_with_parameters] *)
Example search_with_parameters :
  let p := build_search_params (default_config "test_collection")
             {| q_query := "advanced query"; q_default_field := None;
                q_fields := Some ["title"; "content"]; q_start := 10;
                q_rows := Some 20; q_sort := Some "score desc";
                q_filters := Some ["type:document"; "status:published"];
                q_facet_fields := None; q_highlight_fields := None;
                q_suggest := false; q_kwargs := [] |} in
  dict_get "q" p = Some (PStr "advanced query")
  /\ dict_get "fl" p = Some (PStr "title,content")
  /\ dict_get "start" p = Some (PInt 10)
  /\ dict_get "rows" p = Some (PInt 20)
  /\ dict_get "sort" p = Some (PStr "score desc")
  /\ dict_get "fq" p
     = Some (PList [PStr "type:document"; PStr "status:published"]).
Proof. repeat split. Qed.

(** [test_faceted_search] *)
Example faceted_search :
  option_map (map (fun f => (ff_name f, List.length (ff_values f))))
    (match _process_search_response (P := Strict.pydantic)
             (PyHash.secret_of_seed 0)
             {| res_docs := []; res_hits := 0; res_start := None;
                res_qtime := None; res_highlighting := [];
                res_facets :=
                  [("facet_fields",
                    PDict [("category",
                            PList [PStr "books"; PInt 5; PStr "articles";
                                   PInt 3; PStr "papers"; PInt 1]);
                           ("author",
                            PList [PStr "smith"; PInt 4; PStr "jones";
                                   PInt 2])])];
                res_spellcheck := [] |} with
     | Ok resp => facets resp
     | Raise _ => None
     end)
  = Some [("category", 3%nat); ("author", 2%nat)].
Proof. reflexivity. Qed.

(** [test_search_with_highlighting] *)
Example search_with_highlighting :
  match _process_search_response (P := Strict.pydantic)
          (PyHash.secret_of_seed 0)
          {| res_docs := [[("id", PStr "doc1");
                           ("title", PStr "Test Document")]];
             res_hits := 1; res_start := None; res_qtime := None;
             res_highlighting :=
               [("doc1",
                 PDict [("title", PList [PStr "<mark>Test</mark> Document"]);
                        ("content",
                         PList [PStr "This is a <mark>test</mark> document"])])];
             res_facets := []; res_spellcheck := [] |} with
  | Ok resp => map (fun r => (sr_id r, sr_highlighting r)) (results resp)
  | Raise _ => []
  end
  = [("doc1",
      Some [("title", ["<mark>Test</mark> Document"]);
            ("content", ["This is a <mark>test</mark> document"])])].
Proof. reflexivity. Qed.

(* ================================================================== *)
(** * More on the query builder *)
(* ================================================================== *)

Lemma dict_get_absent {V} (k : string) (d : list (string * V)) :
  ~ In k (dict_keys d) -> dict_get k d = None.
Proof.
  induction d as [| [k0 v0] d IH]; simpl; intro H; [reflexivity |].
  destruct (String.eqb k k0) eqn:E.
  - apply String.eqb_eq in E. subst. tauto.
  - apply IH. tauto.
Qed.

(** [{**d, **e}] reads [e] first, then [d]. *)
Lemma dict_get_update {V} (k : string) (e : list (string * V)) :
  NoDup (dict_keys e) ->
  forall d,
    dict_get k (dict_update d e)
    = match dict_get k e with
      | Some v => Some v
      | None => dict_get k d
      end.
Proof.
  unfold dict_update.
  induction e as [| [k0 v0] e IH]; intros Hnd d; simpl; [reflexivity |].
  simpl in Hnd. inversion Hnd as [| ? ? Hnotin Hnd']; subst.
  rewrite (IH Hnd'), dict_get_set.
  destruct (String.eqb k k0) eqn:E.
  - apply String.eqb_eq in E. subst k0.
    now rewrite (dict_get_absent k e Hnotin).
  - reflexivity.
Qed.

(** X1. With at least one filter the parameters carry under [fq] the list
    of the filters, one element each and in the order given; without, the
    builder adds no [fq]. *)
Theorem filters_sent_one_by_one (cfg : SOLRConfig) (r : SearchRequest) :
  if truthy_opt_list (q_filters r) then
    dict_get "fq" (build_search_params cfg r)
    = Some (PList (map PStr (opt_list (q_filters r))))
  else
    dict_mem "fq" (build_search_params cfg r) = dict_mem "fq" (q_kwargs r).
Proof.
  unfold build_search_params, set_highlighting.
  destruct (truthy_opt_list (q_filters r));
    split_ifs; dict_simpl; reflexivity.
Qed.

(** X2. With at least one facet field the parameters switch faceting on,
    list the fields, take the limit from the configuration and ask for
    buckets of at least one document; without, the builder adds none of
    the four. *)
Theorem faceting_parameters (cfg : SOLRConfig) (r : SearchRequest) :
  if truthy_opt_list (q_facet_fields r) then
    facet_params (build_search_params cfg r)
    = (Some (PStr "true"),
       Some (PList (map PStr (opt_list (q_facet_fields r)))),
       Some (PInt (facet_limit cfg)), Some (PInt 1))
  else
    Forall (fun k => dict_mem k (build_search_params cfg r)
                     = dict_mem k (q_kwargs r)) facet_keys.
Proof.
  unfold build_search_params, set_highlighting, facet_params, facet_keys.
  destruct (truthy_opt_list (q_facet_fields r)).
  - split_ifs; dict_simpl; reflexivity.
  - repeat constructor; split_ifs; dict_simpl; reflexivity.
Qed.

(** X3. A request for suggestions switches spellcheck on together with the
    dictionary build and the collation; any other request gets none of
    the three from the builder. *)
Theorem spellcheck_parameters (cfg : SOLRConfig) (r : SearchRequest) :
  if q_suggest r then
    spellcheck_params (build_search_params cfg r)
    = (Some (PStr "true"), Some (PStr "true"), Some (PStr "true"))
  else
    Forall (fun k => dict_mem k (build_search_params cfg r)
                     = dict_mem k (q_kwargs r)) spellcheck_keys.
Proof.
  unfold build_search_params, set_highlighting, spellcheck_params,
    spellcheck_keys.
  destruct (q_suggest r).
  - split_ifs; dict_simpl; reflexivity.
  - repeat constructor; split_ifs; dict_simpl; reflexivity.
Qed.

(** X4. The offset and an explicit row count are sent as given: the row
    count is not capped at [max_rows], and neither is checked for sign. *)
Theorem start_and_rows_sent_as_given (cfg : SOLRConfig) (r : SearchRequest)
    (n : Z) :
  q_rows r = Some n ->
  kwargs_ok (q_kwargs r) = true ->
  dict_get "start" (build_search_params cfg r) = Some (PInt (q_start r))
  /\ dict_get "rows" (build_search_params cfg r) = Some (PInt n).
Proof.
  intros Hrows Hkw.
  assert (Hs : dict_get "start" (q_kwargs r) = None).
  { unfold kwargs_ok, parameter_names in Hkw. simpl in Hkw.
    repeat (apply andb_prop in Hkw; destruct Hkw as [? Hkw]).
    apply dict_mem_get_none. now apply negb_true_iff. }
  pose proof (kwargs_ok_rows _ Hkw) as Hr.
  unfold build_search_params, set_highlighting. rewrite Hrows.
  split; split_ifs; dict_simpl;
    (rewrite dict_get_update_absent by assumption); reflexivity.
Qed.

Lemma start_and_rows_witness :
  dict_get "start" (build_search_params (default_config "docs")
                      oversized_request) = Some (PInt (-5))
  /\ dict_get "rows" (build_search_params (default_config "docs")
                        oversized_request) = Some (PInt 50000).
Proof.
  apply (start_and_rows_sent_as_given (default_config "docs")
           oversized_request 50000); reflexivity.
Defined.

(** X5. Every extra keyword argument reaches the engine: a key of
    [**kwargs] is a key of the parameters. *)
Theorem kwargs_are_forwarded (cfg : SOLRConfig) (r : SearchRequest)
    (k : string) :
  dict_mem k (q_kwargs r) = true ->
  dict_mem k (build_search_params cfg r) = true.
Proof.
  intro H. unfold build_search_params, set_highlighting.
  split_ifs; dict_simpl; rewrite H; now rewrite ?orb_true_r.
Qed.

Lemma kwargs_are_forwarded_witness :
  dict_mem "defType"
    (build_search_params (default_config "docs") edismax_request) = true.
Proof.
  apply (kwargs_are_forwarded (default_config "docs") edismax_request).
  reflexivity.
Defined.

(** X6. The query string is the one argument that loses to [**kwargs]: an
    extra keyword named [q] replaces it, since the extra keywords are
    merged in after the three base parameters and the builder never sets
    [q] again. *)
Theorem kwargs_q_replaces_query (cfg : SOLRConfig) (r : SearchRequest) :
  NoDup (dict_keys (q_kwargs r)) ->
  dict_get "q" (build_search_params cfg r)
  = match dict_get "q" (q_kwargs r) with
    | Some v => Some v
    | None => Some (PStr (q_query r))
    end.
Proof.
  intro Hnd.
  transitivity
    (dict_get "q"
       (dict_update [("q", PStr (q_query r)); ("start", PInt (q_start r));
                     ("rows", PInt (match q_rows r with
                                    | Some n => n
                                    | None => Z.min (max_rows cfg) 100
                                    end))] (q_kwargs r))).
  - unfold build_search_params, set_highlighting.
    repeat match goal with
           | |- context [if ?b then _ else _] => destruct b
           end;
      dict_simpl; reflexivity.
  - now rewrite (dict_get_update "q" (q_kwargs r) Hnd).
Qed.

Lemma kwargs_q_witness :
  dict_get "q" (build_search_params (default_config "docs")
                  q_override_request)
  = Some (PStr "*:*").
Proof.
  apply (kwargs_q_replaces_query (default_config "docs") q_override_request).
  repeat constructor. simpl. tauto.
Defined.

(** X7. An empty string for the default field or the sort, and an empty
    list for the fields, the filters, the facet fields or the highlight
    fields, build the parameters of a request without that argument. *)
Theorem empty_arguments_same_as_absent (cfg : SOLRConfig)
    (r : SearchRequest) :
  build_search_params cfg (drop_empty r) = build_search_params cfg r.
Proof.
  unfold build_search_params, drop_empty, given_str, given_list. simpl.
  destruct (q_default_field r) as [[| ? ?] |], (q_fields r) as [[| ? ?] |],
    (q_sort r) as [[| ? ?] |], (q_filters r) as [[| ? ?] |],
    (q_facet_fields r) as [[| ? ?] |],
    (q_highlight_fields r) as [[| ? ?] |]; reflexivity.
Qed.

(** X8. The fields to return travel as one comma-separated [fl], the sort
    and the default field as given under [sort] and [df]; an argument
    that is absent or empty adds no parameter. *)
Theorem scalar_arguments_sent_as_given (cfg : SOLRConfig)
    (r : SearchRequest) :
  (if truthy_opt_list (q_fields r) then
     dict_get "fl" (build_search_params cfg r)
     = Some (PStr (join "," (opt_list (q_fields r))))
   else dict_mem "fl" (build_search_params cfg r)
        = dict_mem "fl" (q_kwargs r))
  /\ (if truthy_opt_str (q_sort r) then
        dict_get "sort" (build_search_params cfg r)
        = Some (PStr (opt_str (q_sort r)))
      else dict_mem "sort" (build_search_params cfg r)
           = dict_mem "sort" (q_kwargs r))
  /\ (if truthy_opt_str (q_default_field r) then
        dict_get "df" (build_search_params cfg r)
        = Some (PStr (opt_str (q_default_field r)))
      else dict_mem "df" (build_search_params cfg r)
           = dict_mem "df" (q_kwargs r)).
Proof.
  unfold build_search_params, set_highlighting.
  repeat split.
  - destruct (truthy_opt_list (q_fields r));
      split_ifs; dict_simpl; reflexivity.
  - destruct (truthy_opt_str (q_sort r));
      split_ifs; dict_simpl; reflexivity.
  - destruct (truthy_opt_str (q_default_field r));
      split_ifs; dict_simpl; reflexivity.
Qed.

(* ================================================================== *)
(** * More on the response normaliser *)
(* ================================================================== *)

Lemma dict_get_filter {V} (f : string -> bool) (k : string)
    (d : list (string * V)) :
  dict_get k (filter (fun kv => f (fst kv)) d)
  = if f k then dict_get k d else None.
Proof.
  induction d as [| [k0 v0] d IH]; simpl.
  - now destruct (f k).
  - destruct (f k0) eqn:E0; simpl.
    + destruct (String.eqb k k0) eqn:E; [| exact IH].
      apply String.eqb_eq in E. subst. now rewrite E0.
    + rewrite IH. destruct (String.eqb k k0) eqn:E; [| reflexivity].
      apply String.eqb_eq in E. subst. now rewrite E0.
Qed.

Section NormalizerFacts.
Context {P : Pydantic}.

Lemma process_docs_spec (sec : PyHash.hash_secret) (response : Results)
    (docs : list pydict) :
  forall acc rs,
    process_docs sec response docs acc = Ok rs ->
    exists rs',
      rs = (acc ++ rs')%list
      /\ Forall2 (fun doc r => process_doc sec response doc = Ok r) docs rs'.
Proof.
  induction docs as [| doc docs IH]; intros acc rs H; simpl in H.
  - injection H as <-. exists []. split; [now rewrite app_nil_r | constructor].
  - destruct (process_doc sec response doc) as [r |] eqn:Hd;
      simpl in H; [| discriminate].
    destruct (IH _ _ H) as (rs' & -> & Hall).
    exists (r :: rs'). split.
    + now rewrite <- app_assoc.
    + now constructor.
Qed.

(** What a document that passes the validators becomes. *)
Lemma process_doc_ok (sec : PyHash.hash_secret) (response : Results)
    (doc : pydict) (r : SearchResult) :
  process_doc sec response doc = Ok r ->
  str_field (doc_id sec doc) = Some (sr_id r)
  /\ sr_fields r = filter (fun kv => negb (special_field (fst kv))) doc
  /\ sr_highlighting r
     = match highlight_entry response (doc_id sec doc) with
       | Some v => str_list_map_field v
       | None => None
       end.
Proof.
  unfold process_doc, highlight_entry. intro H.
  assert (Hnew : forall hl,
             SearchResult_new (doc_id sec doc) (dict_get "score" doc)
               (filter (fun kv => negb (special_field (fst kv))) doc) hl
             = Ok r ->
             str_field (doc_id sec doc) = Some (sr_id r)
             /\ sr_fields r
                = filter (fun kv => negb (special_field (fst kv))) doc
             /\ sr_highlighting r
                = match hl with
                  | Some v => str_list_map_field v
                  | None => None
                  end).
  { intros hl Hn. unfold SearchResult_new in Hn.
    destruct (str_field (doc_id sec doc)) as [i |]; [| discriminate].
    destruct (match dict_get "score" doc with
              | Some PNone | None => Ok None
              | Some _ => _
              end) as [sc |]; simpl in Hn; [| discriminate].
    destruct hl as [v |]; simpl in Hn.
    - destruct (str_list_map_field v) as [h |]; simpl in Hn;
        [| discriminate].
      injection Hn as <-. simpl. auto.
    - injection Hn as <-. simpl. auto. }
  revert H Hnew. generalize (doc_id sec doc). intros id H Hnew.
  destruct (res_highlighting response) as [| entry hl].
  - simpl in H. apply Hnew in H. destruct H as (Hi & Hf & Hh).
    repeat split; try assumption. rewrite Hh.
    now destruct id.
  - change (truthy (PDict (entry :: hl))) with true in H. cbv iota in H.
    destruct id as [| b | z | f | s | l | d];
      cbn [py_get_by rbind truthy truthy_list] in H; try discriminate;
      try (apply Hnew in H; destruct H as (Hi & Hf & Hh);
           repeat split; assumption).
    destruct (dict_get s (entry :: hl)) as [v |].
    + destruct (truthy v); apply Hnew in H; destruct H as (Hi & Hf & Hh);
        repeat split; assumption.
    + cbn [truthy truthy_list] in H.
      apply Hnew in H. destruct H as (Hi & Hf & Hh).
      repeat split; assumption.
Qed.

(** The parts of a reply that normalises. *)
Lemma response_ok_inv (sec : PyHash.hash_secret) (response : Results)
    (resp : SearchResponse) :
  _process_search_response sec response = Ok resp ->
  exists fs sg,
    process_docs sec response (res_docs response) [] = Ok (results resp)
    /\ process_facets response = Ok fs
    /\ process_suggestions response = Ok sg
    /\ total_found resp = res_hits response
    /\ start resp = match res_start response with Some s => s | None => 0 end
    /\ rows resp = Z.of_nat (List.length (results resp))
    /\ query_time resp = res_qtime response
    /\ suggestions resp
       = (if truthy_list sg then str_list_map_field (PDict sg) else None).
Proof.
  unfold _process_search_response. intro H.
  destruct (process_docs sec response (res_docs response) [])
    as [rs |]; simpl in H; [| discriminate].
  destruct (process_facets response) as [fs |]; simpl in H; [| discriminate].
  destruct (process_suggestions response) as [sg |];
    simpl in H; [| discriminate].
  exists fs, sg.
  destruct (truthy_list sg).
  - destruct (str_list_map_field (PDict sg)) as [m |] eqn:Em;
      simpl in H; [| discriminate].
    injection H as <-. simpl. repeat split; auto.
  - simpl in H. injection H as <-. simpl. repeat split; auto.
Qed.

Lemma results_of_docs (sec : PyHash.hash_secret) (response : Results)
    (resp : SearchResponse) :
  _process_search_response sec response = Ok resp ->
  Forall2 (fun doc r => process_doc sec response doc = Ok r)
    (res_docs response) (results resp).
Proof.
  intro H. destruct (response_ok_inv _ _ _ H) as (fs & sg & Hd & _).
  destruct (process_docs_spec _ _ _ _ _ Hd) as (rs' & Hrs & Hall).
  simpl in Hrs. now rewrite Hrs.
Qed.

(** X9. A normalised response has one result per document of the reply,
    and its [rows] is that number (not the row count asked for); the
    total, the query time and the offset are the reply's, the offset
    being 0 when the reply carries none. *)
Theorem response_counts (sec : PyHash.hash_secret) (response : Results)
    (resp : SearchResponse) :
  _process_search_response sec response = Ok resp ->
  List.length (results resp) = List.length (res_docs response)
  /\ rows resp = Z.of_nat (List.length (res_docs response))
  /\ total_found resp = res_hits response
  /\ query_time resp = res_qtime response
  /\ start resp = match res_start response with Some s => s | None => 0 end.
Proof.
  intro H. pose proof (results_of_docs _ _ _ H) as Hall.
  destruct (response_ok_inv _ _ _ H)
    as (fs & sg & _ & _ & _ & Ht & Hs & Hr & Hq & _).
  apply Forall2_length in Hall.
  rewrite Hr, Hall. repeat split; auto.
Qed.

(** X10. The field map of a result holds neither [id] nor [score], and
    every other field of the document with the value the engine sent. *)
Theorem fields_exclude_id_and_score (sec : PyHash.hash_secret)
    (response : Results) (resp : SearchResponse) :
  _process_search_response sec response = Ok resp ->
  Forall2 (fun doc r =>
             forall k,
               dict_get k (sr_fields r)
               = if special_field k then None else dict_get k doc)
    (res_docs response) (results resp).
Proof.
  intro H. pose proof (results_of_docs _ _ _ H) as Hall.
  eapply Forall2_impl; [| exact Hall].
  intros doc r Hd k. simpl in Hd.
  destruct (process_doc_ok _ _ _ _ Hd) as (_ & -> & _).
  rewrite (dict_get_filter (fun k => negb (special_field k))).
  now destruct (special_field k).
Qed.

(** X11. When every document of the reply has a string [id], the results
    carry these identifiers, one result per document and in the order of
    the reply. *)
Theorem results_keep_ids_in_order (sec : PyHash.hash_secret)
    (response : Results) (resp : SearchResponse) :
  _process_search_response sec response = Ok resp ->
  Forall (fun doc => string_id doc <> None) (res_docs response) ->
  map Some (map sr_id (results resp)) = map string_id (res_docs response).
Proof.
  intros H Hids. pose proof (results_of_docs _ _ _ H) as Hall.
  induction Hall as [| doc r docs rs Hd Hall IH]; simpl; [reflexivity |].
  inversion Hids as [| ? ? Hid Hids']; subst.
  f_equal; [| exact (IH Hids')].
  destruct (process_doc_ok _ _ _ _ Hd) as (Hi & _).
  unfold string_id in *. unfold doc_id in Hi.
  destruct (dict_get "id" doc) as [[| | | | s | |] |]; try congruence.
  rewrite str_field_str in Hi. congruence.
Qed.

(** X12. A result carries the highlighting that the reply files under its
    document's identifier; a document with no entry there, or an empty
    one, gets [None] and not an empty map. *)
Theorem highlighting_follows_document_id (sec : PyHash.hash_secret)
    (response : Results) (resp : SearchResponse) :
  _process_search_response sec response = Ok resp ->
  Forall2 (fun doc r =>
             sr_highlighting r
             = match highlight_entry response (doc_id sec doc) with
               | Some v => str_list_map_field v
               | None => None
               end)
    (res_docs response) (results resp).
Proof.
  intro H. pose proof (results_of_docs _ _ _ H) as Hall.
  eapply Forall2_impl; [| exact Hall].
  intros doc r Hd. simpl in Hd.
  now destruct (process_doc_ok _ _ _ _ Hd) as (_ & _ & ->).
Qed.

End NormalizerFacts.

Lemma response_counts_witness :
  List.length (results two_docs_response)
  = List.length (res_docs two_docs_reply)
  /\ rows two_docs_response = Z.of_nat (List.length (res_docs two_docs_reply))
  /\ total_found two_docs_response = res_hits two_docs_reply
  /\ query_time two_docs_response = res_qtime two_docs_reply
  /\ start two_docs_response
     = match res_start two_docs_reply with Some s => s | None => 0 end.
Proof.
  apply (response_counts (P := Strict.pydantic) (PyHash.secret_of_seed 0)
           two_docs_reply two_docs_response).
  reflexivity.
Defined.

Lemma fields_exclude_witness :
  Forall2 (fun doc r =>
             forall k,
               dict_get k (sr_fields r)
               = if special_field k then None else dict_get k doc)
    (res_docs two_docs_reply) (results two_docs_response).
Proof.
  apply (fields_exclude_id_and_score (P := Strict.pydantic)
           (PyHash.secret_of_seed 0) two_docs_reply two_docs_response).
  reflexivity.
Defined.

Lemma results_keep_ids_witness :
  map Some (map sr_id (results two_docs_response))
  = map string_id (res_docs two_docs_reply).
Proof.
  apply (results_keep_ids_in_order (P := Strict.pydantic)
           (PyHash.secret_of_seed 0) two_docs_reply two_docs_response).
  - reflexivity.
  - repeat constructor; discriminate.
Defined.

Lemma highlighting_witness :
  Forall2 (fun doc r =>
             sr_highlighting r
             = match highlight_entry two_docs_reply
                       (doc_id (PyHash.secret_of_seed 0) doc) with
               | Some v => str_list_map_field (Pydantic := Strict.pydantic) v
               | None => None
               end)
    (res_docs two_docs_reply) (results two_docs_response).
Proof.
  apply (highlighting_follows_document_id (P := Strict.pydantic)
           (PyHash.secret_of_seed 0) two_docs_reply two_docs_response).
  reflexivity.
Defined.

Lemma pair_induction {A} (Q : list A -> Prop) :
  Q [] -> (forall x, Q [x]) -> (forall x y l, Q l -> Q (x :: y :: l)) ->
  forall l, Q l.
Proof.
  intros H0 H1 H2 l.
  enough (H : Q l /\ forall x, Q (x :: l)) by exact (proj1 H).
  induction l as [| y l [IH1 IH2]]; split; auto.
Qed.

Section PairDecoding.
Context {P : Pydantic}.

Lemma facet_values_loop_pairs (rest : list pyval) :
  forall (prefix : list pyval) (fuel : nat) (acc : list FacetValue),
    (List.length rest <= fuel)%nat ->
    let l := (prefix ++ rest)%list in
    facet_values_loop (PList l) (List.length l)
      (range_from fuel (List.length prefix) (List.length l) 2) acc
    = rbind (decode_pairs rest) (fun fvs => Ok (acc ++ fvs)%list).
Proof.
  induction rest as [| x | x y rest IH] using pair_induction;
    intros prefix fuel acc Hfuel l; subst l.
  - rewrite app_nil_r. simpl. rewrite app_nil_r.
    destruct fuel; simpl; [reflexivity |]. now rewrite Nat.ltb_irrefl.
  - rewrite length_app. simpl. rewrite app_nil_r.
    destruct fuel as [| fuel]; simpl; [reflexivity |].
    replace (List.length prefix <? List.length prefix + 1)%nat
      with true by (symmetry; apply Nat.ltb_lt; lia).
    simpl. rewrite Nat.ltb_irrefl.
    destruct fuel; simpl; [reflexivity |].
    replace (List.length prefix + 2 <? List.length prefix + 1)%nat
      with false by (symmetry; apply Nat.ltb_ge; lia).
    reflexivity.
  - destruct fuel as [| fuel]; [simpl in Hfuel; lia |].
    set (l := (prefix ++ x :: y :: rest)%list).
    assert (Hl : l = ((prefix ++ [x; y]) ++ rest)%list)
      by (subst l; now rewrite <- app_assoc).
    assert (Hlen : (List.length prefix + 2 <= List.length l)%nat)
      by (subst l; rewrite length_app; simpl; lia).
    simpl range_from.
    replace (List.length prefix <? List.length l)%nat
      with true by (symmetry; apply Nat.ltb_lt; lia).
    simpl facet_values_loop.
    replace (List.length prefix + 1 <? List.length l)%nat
      with true by (symmetry; apply Nat.ltb_lt; lia).
    assert (Hx : nth_error l (List.length prefix) = Some x).
    { subst l. rewrite nth_error_app2 by lia. now rewrite Nat.sub_diag. }
    assert (Hy : nth_error l (List.length prefix + 1) = Some y).
    { subst l. rewrite nth_error_app2 by lia.
      replace (List.length prefix + 1 - List.length prefix)%nat
        with 1%nat by lia.
      reflexivity. }
    rewrite Hx, Hy. cbn [of_option rbind decode_pairs].
    destruct (FacetValue_new (str x) y) as [fv | e]; cbn [rbind];
      [| reflexivity].
    specialize (IH (prefix ++ [x; y])%list fuel (acc ++ [fv])%list).
    rewrite length_app in IH. simpl in IH. rewrite <- Hl in IH.
    simpl in Hfuel. rewrite IH by lia.
    destruct (decode_pairs rest) as [fvs | e]; cbn [rbind];
      [| reflexivity].
    now rewrite <- app_assoc.
Qed.

(** X13. On every list, the index loop of the facet decoder computes the
    pairwise decoding from the left: a bucket per pair of neighbours, an
    unpaired last element dropped, and the error of the first count the
    validator rejects. *)
Theorem facet_decoding_is_pairwise (l : list pyval) :
  decode_facet_values (PList l) = decode_pairs l.
Proof.
  unfold decode_facet_values, range. cbn [py_len rbind].
  pose proof (facet_values_loop_pairs l [] (List.length l) [] (le_n _))
    as H.
  simpl in H. rewrite H.
  now destruct (decode_pairs l).
Qed.

(** X14. One facet field that does not decode fails the whole search with
    [SOLRQueryError]: no partial response is returned. *)
Theorem undecodable_facet_fails_search (c : SOLRClient) (s : Solr)
    (r : SearchRequest) (w : world) (response : Results) (name : string)
    (raw : pyval) (cause : exn) :
  _solr c = Some s ->
  solr_search s (queries w) (build_search_params (config c) r)
  = Ok response ->
  In (name, raw) (facet_items response) ->
  decode_facet_values raw = Raise cause ->
  exists e, fst (search c r w) = Raise e /\ exn_cls e = SOLRQueryError.
Proof.
  intros Hs Hr Hin Hdec.
  pose proof (search_outcome c r w) as Hout.
  unfold search_failure in Hout. rewrite Hs, Hr in Hout.
  destruct (_process_search_response (secret w) response)
    as [resp | e0] eqn:Hp.
  - exfalso.
    destruct (response_ok_inv _ _ _ Hp) as (fs & sg & _ & Hf & _).
    destruct (process_facets_spec _ _ Hf) as (decoded & Hall & _).
    clear - Hall Hin Hdec.
    induction Hall as [| it d items ds [_ Hd] Hall IH]; simpl in Hin;
      [contradiction |].
    destruct Hin as [-> | Hin]; [| exact (IH Hin)].
    simpl in Hd. congruence.
  - eexists. split; [exact Hout | reflexivity].
Qed.

Lemma suggestions_loop_all (items : pydict) :
  forall acc,
    NoDup (dict_keys acc ++ dict_keys items) ->
    suggestions_loop items acc = (acc ++ all_candidates items)%list.
Proof.
  induction items as [| [word data] items IH]; intros acc Hnd; simpl.
  - now rewrite app_nil_r.
  - simpl in Hnd.
    pose proof (NoDup_remove_1 _ _ _ Hnd) as Hnd1.
    pose proof (NoDup_remove_2 _ _ _ Hnd) as Hnd2.
    destruct (has_suggestion data) as [v |].
    + rewrite dict_set_fresh
        by (intro Hin; apply Hnd2, in_or_app; now left).
      rewrite IH; [now rewrite <- app_assoc |].
      unfold dict_keys in *. rewrite map_app. simpl.
      now rewrite <- app_assoc.
    + now apply IH.
Qed.

(** X15. The suggestions of a search response are those of the reply,
    every candidate of every term that has a [suggestion] entry (no
    truncation), and the attribute is [None] when no term has one. *)
Theorem search_suggestions_untruncated (sec : PyHash.hash_secret)
    (response : Results) (resp : SearchResponse) :
  _process_search_response sec response = Ok resp ->
  NoDup (dict_keys (suggestion_items response)) ->
  suggestions resp
  = if truthy_list (all_candidates (suggestion_items response))
    then str_list_map_field
           (PDict (all_candidates (suggestion_items response)))
    else None.
Proof.
  intros H Hnd.
  destruct (response_ok_inv _ _ _ H) as (fs & sg & _ & _ & Hsg & _ & _ & _
                                          & _ & ->).
  enough (Hs : sg = all_candidates (suggestion_items response))
    by now rewrite Hs.
  unfold process_suggestions, suggestion_items in *.
  destruct (res_spellcheck response) as [| entry sp].
  - simpl in Hsg. now injection Hsg as <-.
  - change (truthy (PDict (entry :: sp))) with true in Hsg. cbv iota in Hsg.
    destruct (dict_get "suggestions" (entry :: sp))
      as [[| | | | | | d] |]; cbn [py_items rbind] in Hsg;
      try discriminate.
    + injection Hsg as <-. now rewrite suggestions_loop_all.
    + now injection Hsg as <-.
Qed.

(** X16. A reply whose suggestions are not a map (the engine's flat list,
    say) gets the empty mapping from [suggest_query] and makes [search]
    raise [SOLRQueryError]. *)
Theorem suggestions_must_be_a_map (c : SOLRClient) (s : Solr)
    (r : SearchRequest) (query : string) (count : Z) (w : world)
    (response : Results) (v : pyval) :
  _solr c = Some s ->
  dict_get "suggestions" (res_spellcheck response) = Some v ->
  is_dict v = false ->
  (solr_search s (queries w) (suggest_params query count) = Ok response ->
   fst (suggest_query c query count w) = Ok [])
  /\ (solr_search s (queries w) (build_search_params (config c) r)
      = Ok response ->
      exists e, fst (search c r w) = Raise e /\ exn_cls e = SOLRQueryError).
Proof.
  intros Hs Hsp Hv. split; intro Hr.
  - unfold suggest_query. run_M. rewrite Hs. simpl. rewrite Hr. simpl.
    unfold flatten_suggestions. rewrite Hsp.
    destruct v; try discriminate; reflexivity.
  - pose proof (search_outcome c r w) as Hout.
    unfold search_failure in Hout. rewrite Hs, Hr in Hout.
    destruct (_process_search_response (secret w) response)
      as [resp | e0] eqn:Hp.
    + exfalso.
      destruct (response_ok_inv _ _ _ Hp) as (fs & sg & _ & _ & Hsg & _).
      unfold process_suggestions in Hsg.
      destruct (res_spellcheck response) as [| entry sp];
        [discriminate |].
      change (truthy (PDict (entry :: sp))) with true in Hsg.
      cbv iota in Hsg. rewrite Hsp in Hsg.
      destruct v; discriminate.
    + eexists. split; [exact Hout | reflexivity].
Qed.

End PairDecoding.

Lemma undecodable_facet_witness :
  exists e,
    fst (search (P := Strict.pydantic)
           (client_of (engine_replying bad_count_reply))
           (request "*:*") (world0 (PyHash.secret_of_seed 0)))
    = Raise e
    /\ exn_cls e = SOLRQueryError.
Proof.
  apply (undecodable_facet_fails_search (P := Strict.pydantic)
           (client_of (engine_replying bad_count_reply))
           (engine_replying bad_count_reply) (request "*:*")
           (world0 (PyHash.secret_of_seed 0)) bad_count_reply "category"
           (PList [PStr "books"; PInt 5; PStr "articles"; PStr "many"])
           (validation_error "count")).
  - reflexivity.
  - reflexivity.
  - left. reflexivity.
  - reflexivity.
Defined.

Lemma search_suggestions_witness :
  suggestions two_docs_response
  = if truthy_list (all_candidates (suggestion_items two_docs_reply))
    then str_list_map_field (Pydantic := Strict.pydantic)
           (PDict (all_candidates (suggestion_items two_docs_reply)))
    else None.
Proof.
  apply (search_suggestions_untruncated (P := Strict.pydantic)
           (PyHash.secret_of_seed 0) two_docs_reply two_docs_response).
  - reflexivity.
  - repeat constructor; simpl; intuition discriminate.
Defined.

Lemma suggestions_map_witness :
  fst (suggest_query (client_of (engine_replying list_suggestions_reply))
         "documnt" 5 (world0 (PyHash.secret_of_seed 0))) = Ok []
  /\ exists e,
       fst (search (P := Strict.pydantic)
              (client_of (engine_replying list_suggestions_reply))
              (request "documnt") (world0 (PyHash.secret_of_seed 0)))
       = Raise e
       /\ exn_cls e = SOLRQueryError.
Proof.
  destruct (suggestions_must_be_a_map (P := Strict.pydantic)
              (client_of (engine_replying list_suggestions_reply))
              (engine_replying list_suggestions_reply)
              (request "documnt") "documnt" 5
              (world0 (PyHash.secret_of_seed 0)) list_suggestions_reply
              (PList [PStr "documnt";
                      PDict [("suggestion", PList [PStr "document"])]])
              eq_refl eq_refl eq_refl) as [Hsuggest Hsearch].
  exact (conj (Hsuggest eq_refl) (Hsearch eq_refl)).
Defined.

(* ================================================================== *)
(** * More on the client *)
(* ================================================================== *)

Section ClientFacts.
Context {P : Pydantic}.

(** X17. On an open client every operation but the construction talks to
    the engine exactly once, whatever the outcome: [search],
    [suggest_query], [get_schema_fields] and [get_collection_stats] send
    one query and no probe, [ping] one probe and no query, and none of
    them pauses or tries again. *)
Theorem operations_contact_engine_once (c : SOLRClient) (s : Solr)
    (r : SearchRequest) (query : string) (count : Z) (w : world) :
  _solr c = Some s ->
  contact (snd (search c r w)) = (probes w, S (queries w), slept w)
  /\ contact (snd (suggest_query c query count w))
     = (probes w, S (queries w), slept w)
  /\ contact (snd (get_schema_fields c w))
     = (probes w, S (queries w), slept w)
  /\ contact (snd (get_collection_stats c w))
     = (probes w, S (queries w), slept w)
  /\ contact (snd (ping c w)) = (S (probes w), queries w, slept w).
Proof.
  intro Hs. unfold contact. repeat split.
  - unfold search. run_M. rewrite Hs. simpl.
    destruct (solr_search s (queries w) _) as [response | e]; simpl.
    + destruct (_process_search_response (secret w) response)
        as [resp | e]; simpl; [reflexivity |].
      destruct (is_solr_error e); reflexivity.
    + destruct (is_solr_error e); reflexivity.
  - unfold suggest_query. run_M. rewrite Hs. simpl.
    destruct (solr_search s (queries w) _) as [response | e]; simpl;
      [| reflexivity].
    destruct (flatten_suggestions response count); reflexivity.
  - unfold get_schema_fields. run_M. rewrite Hs. simpl.
    destruct (solr_search s (queries w) _) as [response | e]; simpl;
      [| reflexivity].
    destruct (res_docs response); reflexivity.
  - unfold get_collection_stats. run_M. rewrite Hs. simpl.
    destruct (solr_search s (queries w) _) as [response | e]; reflexivity.
  - unfold ping. run_M. rewrite Hs. simpl.
    destruct (solr_ping s (probes w)); reflexivity.
Qed.

(** X18. [close] leaves a client without transport, and closing again
    changes and logs nothing. On a closed client [search] raises
    [SOLRQueryError], the best-effort operations return their defaults,
    and none of them reaches the engine. *)
Theorem closed_client_fails_fast (c : SOLRClient) (r : SearchRequest)
    (query : string) (count : Z) (w w2 : world) :
  fst (close c w) = Ok (closed c)
  /\ close (closed c) w2 = (Ok (closed c), w2)
  /\ fst (search (closed c) r w2) = Raise closed_search_error
  /\ fst (ping (closed c) w2) = Ok false
  /\ fst (suggest_query (closed c) query count w2) = Ok []
  /\ fst (get_schema_fields (closed c) w2) = Ok []
  /\ fst (get_collection_stats (closed c) w2) = Ok []
  /\ contact (snd (search (closed c) r w2)) = contact w2
  /\ contact (snd (ping (closed c) w2)) = contact w2
  /\ contact (snd (suggest_query (closed c) query count w2)) = contact w2
  /\ contact (snd (get_schema_fields (closed c) w2)) = contact w2
  /\ contact (snd (get_collection_stats (closed c) w2)) = contact w2.
Proof.
  split.
  - unfold close, closed. destruct c as [cfg [s |]]; reflexivity.
  - repeat split.
Qed.

End ClientFacts.

Section ProbeFacts.
Variables (c : SOLRClient) (s : Solr).
Hypothesis client_open : _solr c = Some s.

(** One turn of the retry loop. *)
Lemma ping_loop_step (max_retries attempt : nat) (attempts : list nat)
    (w : world) :
  ping_loop c max_retries (attempt :: attempts) w
  = match solr_ping s (probes w) with
    | Ok _ => (Ok tt, probed w)
    | Raise e =>
        if (attempt =? max_retries - 1)%nat then (Raise e, probed w)
        else ping_loop c max_retries attempts (retried attempt e w)
    end.
Proof.
  simpl. run_M. rewrite client_open. simpl.
  destruct (solr_ping s (probes w)) as [[] | e]; [reflexivity |].
  destruct (attempt =? max_retries - 1)%nat; reflexivity.
Qed.

End ProbeFacts.

(** X19. The construction succeeds with the first probe that does: after
    [j < 3] failed probes and a good one the client is open, the engine
    has been probed [j + 1] times and the client has paused after each of
    the [j] failures, for 0.5 s times the number of the attempt. *)
Theorem connection_init_succeeds_after_failures (cfg : SOLRConfig)
    (connect : string -> option (string * string) -> Z -> bool -> result Solr)
    (s : Solr) (j : nat) (w : world) :
  connect (collection_url cfg) (auth_of cfg) (timeout cfg) (verify_ssl cfg)
  = Ok s ->
  (j < 3)%nat ->
  (forall n, (n < j)%nat -> exists e, solr_ping s (probes w + n) = Raise e) ->
  solr_ping s (probes w + j) = Ok tt ->
  exists w',
    _initialize_connection cfg connect w
    = (Ok {| config := cfg; _solr := Some s |}, w')
    /\ probes w' = (probes w + S j)%nat
    /\ queries w' = queries w
    /\ slept w' = (slept w ++ map backoff (seq 0 j))%list.
Proof.
  intros Hconn Hj Hfail Hok.
  unfold _initialize_connection, _ping_with_retry, default_max_retries.
  rewrite range_seq. unfold try_except, bind, lift at 1. rewrite Hconn.
  set (c := {| config := cfg; _solr := Some s |}).
  change (seq 0 3) with [0; 1; 2]%nat.
  destruct j as [| [| [| j]]]; try lia.
  - rewrite Nat.add_0_r in Hok.
    rewrite (ping_loop_step c s eq_refl), Hok.
    eexists. split; [reflexivity |]. simpl.
    repeat split; [lia | now rewrite app_nil_r].
  - destruct (Hfail 0%nat ltac:(lia)) as [e0 He0].
    rewrite Nat.add_0_r in He0.
    rewrite (ping_loop_step c s eq_refl), He0. cbn [Nat.eqb Nat.sub].
    rewrite (ping_loop_step c s eq_refl). cbn [retried probes].
    replace (S (probes w)) with (probes w + 1)%nat by lia. rewrite Hok.
    eexists. split; [reflexivity |]. simpl.
    repeat split; lia.
  - destruct (Hfail 0%nat ltac:(lia)) as [e0 He0].
    destruct (Hfail 1%nat ltac:(lia)) as [e1 He1].
    rewrite Nat.add_0_r in He0.
    rewrite (ping_loop_step c s eq_refl), He0. cbn [Nat.eqb Nat.sub].
    rewrite (ping_loop_step c s eq_refl). cbn [retried probes].
    replace (S (probes w)) with (probes w + 1)%nat by lia. rewrite He1.
    cbn [Nat.eqb Nat.sub].
    rewrite (ping_loop_step c s eq_refl). cbn [retried probes].
    replace (S (S (probes w))) with (probes w + 2)%nat by lia. rewrite Hok.
    eexists. split; [reflexivity |]. simpl.
    repeat split; [lia | now rewrite <- app_assoc].
Qed.

Lemma connection_init_success_witness :
  exists w',
    _initialize_connection (default_config "docs")
      (fun _ _ _ _ => Ok (engine_up_after 2 documnt_reply))
      (world0 (PyHash.secret_of_seed 0))
    = (Ok {| config := default_config "docs";
             _solr := Some (engine_up_after 2 documnt_reply) |}, w')
    /\ probes w' = 3%nat
    /\ queries w' = 0%nat
    /\ slept w' = [backoff 0; backoff 1].
Proof.
  apply (connection_init_succeeds_after_failures (default_config "docs")
           (fun _ _ _ _ => Ok (engine_up_after 2 documnt_reply))
           (engine_up_after 2 documnt_reply) 2
           (world0 (PyHash.secret_of_seed 0))).
  - reflexivity.
  - lia.
  - intros n Hn. simpl.
    destruct n as [| [| n]]; [eexists; reflexivity .. | lia].
  - reflexivity.
Defined.

(** X20. Whatever the constructor of the transport and the engine do, the
    construction probes the engine at most 3 times, sends no query and
    pauses at most twice; it ends with an open client for the given
    configuration or raises [SOLRConnectionError], never anything else. *)
Theorem connection_init_is_bounded (cfg : SOLRConfig)
    (connect : string -> option (string * string) -> Z -> bool -> result Solr)
    (w : world) :
  (probes (snd (_initialize_connection cfg connect w)) <= probes w + 3)%nat
  /\ queries (snd (_initialize_connection cfg connect w)) = queries w
  /\ (List.length (slept (snd (_initialize_connection cfg connect w)))
      <= List.length (slept w) + 2)%nat
  /\ match fst (_initialize_connection cfg connect w) with
     | Ok c => config c = cfg /\ _solr c <> None
     | Raise e => exn_cls e = SOLRConnectionError
     end.
Proof.
  remember (_initialize_connection cfg connect w) as res eqn:Hres.
  unfold _initialize_connection, _ping_with_retry, default_max_retries
    in Hres.
  rewrite range_seq in Hres. unfold try_except, bind, lift at 1 in Hres.
  destruct (connect _ _ _ _) as [s | e0].
  - set (c := {| config := cfg; _solr := Some s |}) in Hres.
    change (seq 0 3) with [0; 1; 2]%nat in Hres.
    rewrite (ping_loop_step c s eq_refl) in Hres.
    destruct (solr_ping s (probes w)) as [[] | e1].
    { subst res. simpl. repeat split; try lia.
      intro H; discriminate H. }
    cbn [Nat.eqb Nat.sub] in Hres.
    rewrite (ping_loop_step c s eq_refl) in Hres.
    destruct (solr_ping s (probes (retried 0 e1 w))) as [[] | e2].
    { subst res. simpl. rewrite length_app. simpl.
      repeat split; try lia.
      intro H; discriminate H. }
    cbn [Nat.eqb Nat.sub] in Hres.
    rewrite (ping_loop_step c s eq_refl) in Hres.
    destruct (solr_ping s (probes (retried 1 e2 (retried 0 e1 w))))
      as [[] | e3].
    { subst res. simpl. rewrite !length_app. simpl.
      repeat split; try lia.
      intro H; discriminate H. }
    cbn [Nat.eqb Nat.sub] in Hres. subst res. simpl.
    rewrite !length_app. simpl.
    repeat split; lia.
  - subst res. simpl. repeat split; lia.
Qed.

(** X21. Credentials are passed to the transport only when a user name
    and a password are both set and neither is empty. *)
Theorem auth_needs_both_credentials (cfg : SOLRConfig) (u p : string) :
  auth_of cfg = Some (u, p)
  <-> username cfg = Some u /\ password cfg = Some p
      /\ u <> EmptyString /\ p <> EmptyString.
Proof.
  unfold auth_of. split.
  - destruct (username cfg) as [[| a u'] |], (password cfg) as [[| b p'] |];
      simpl; intro H; try discriminate.
    injection H as <- <-. repeat split; discriminate.
  - intros (-> & -> & Hu & Hp).
    destruct u; [contradiction |]. destruct p; [contradiction |].
    reflexivity.
Qed.

Lemma auth_witness :
  auth_of (config_with_auth (Some "solr") (Some "secret"))
  = Some ("solr", "secret")
  /\ auth_of (config_with_auth (Some "solr") (Some EmptyString)) = None.
Proof.
  split.
  - apply (proj2 (auth_needs_both_credentials
                    (config_with_auth (Some "solr") (Some "secret"))
                    "solr" "secret")).
    repeat split; discriminate.
  - reflexivity.
Defined.

Lemma operations_once_witness :
  contact (snd (search (P := Strict.pydantic)
                  (client_of (engine_replying two_docs_reply))
                  (request "test") (world0 (PyHash.secret_of_seed 0))))
  = (0%nat, 1%nat, [])
  /\ contact (snd (ping (client_of (engine_down "refused"))
                     (world0 (PyHash.secret_of_seed 0))))
     = (1%nat, 0%nat, []).
Proof.
  split.
  - exact (proj1 (operations_contact_engine_once (P := Strict.pydantic)
                    (client_of (engine_replying two_docs_reply))
                    (engine_replying two_docs_reply) (request "test")
                    "test" 5 (world0 (PyHash.secret_of_seed 0)) eq_refl)).
  - exact (proj2 (proj2 (proj2 (proj2
             (operations_contact_engine_once (P := Strict.pydantic)
                (client_of (engine_down "refused"))
                (engine_down "refused") (request "test")
                "test" 5 (world0 (PyHash.secret_of_seed 0)) eq_refl))))).
Defined.

(* ================================================================== *)
(** * The configuration *)
(* ================================================================== *)

Lemma rstrip_no_trailing (c : ascii) (s : string) :
  endswith_char c (rstrip_char c s) = false.
Proof.
  induction s as [| a s IH]; simpl; [reflexivity |].
  destruct (rstrip_char c s) as [| b t] eqn:E.
  - destruct (Ascii.eqb a c) eqn:Ea; simpl; [reflexivity | exact Ea].
  - exact IH.
Qed.

Lemma rstrip_decompose (c : ascii) (s : string) :
  exists n, s = rstrip_char c s ++ repeat_char c n.
Proof.
  induction s as [| a s [n IH]]; simpl.
  - exists 0%nat. reflexivity.
  - destruct (rstrip_char c s) as [| b t] eqn:E.
    + simpl in IH. destruct (Ascii.eqb a c) eqn:Ea.
      * apply Ascii.eqb_eq in Ea. subst a. exists (S n). simpl.
        f_equal. exact IH.
      * exists n. simpl. f_equal. exact IH.
    + exists n. simpl in *. f_equal. exact IH.
Qed.

(** X22. A base URL that passes validation started with [http://] or
    [https://]; what is stored is the URL without its trailing slashes,
    all of them, and nothing else is changed. *)
Theorem validated_url_has_no_trailing_slash (v v' : string) :
  ConfigPy.validate_base_url v = Ok v' ->
  ConfigPy.is_http_url v = true
  /\ endswith_char slash v' = false
  /\ exists n, v = v' ++ repeat_char slash n.
Proof.
  unfold ConfigPy.validate_base_url, ConfigPy.validate_url.
  destruct (ConfigPy.is_http_url v); simpl; [| discriminate].
  intro H. injection H as <-. split; [reflexivity |].
  destruct (endswith_char slash v) eqn:E.
  - split; [apply rstrip_no_trailing | apply rstrip_decompose].
  - split; [exact E |]. exists 0%nat. simpl.
    clear. induction v as [| a v IH]; simpl; [reflexivity |].
    now rewrite <- IH.
Qed.

Lemma validated_url_witness :
  ConfigPy.is_http_url "http://localhost:8983/solr//" = true
  /\ endswith_char slash "http://localhost:8983/solr" = false
  /\ exists n, "http://localhost:8983/solr//"
               = "http://localhost:8983/solr" ++ repeat_char slash n.
Proof.
  apply (validated_url_has_no_trailing_slash
           "http://localhost:8983/solr//" "http://localhost:8983/solr").
  reflexivity.
Defined.

(** X23. A [SOLRConfig] that has been constructed has a base URL without
    trailing slash, a positive timeout and between 1 and 10000 maximum
    rows; apart from the slashes of the URL it holds the arguments of
    the constructor. *)
Theorem constructed_config_is_valid (raw cfg : SOLRConfig) :
  ConfigPy.SOLRConfig_new raw = Ok cfg ->
  ConfigPy.validate_base_url (base_url raw) = Ok (base_url cfg)
  /\ endswith_char slash (base_url cfg) = false
  /\ 0 < timeout cfg /\ 0 < max_rows cfg <= 10000
  /\ (collection cfg, username cfg, password cfg, timeout cfg,
      verify_ssl cfg, max_rows cfg, default_search_field cfg,
      facet_limit cfg, highlight_enabled cfg)
     = (collection raw, username raw, password raw, timeout raw,
        verify_ssl raw, max_rows raw, default_search_field raw,
        facet_limit raw, highlight_enabled raw).
Proof.
  unfold ConfigPy.SOLRConfig_new, ConfigPy.validate_timeout,
    ConfigPy.validate_max_rows.
  destruct (ConfigPy.validate_base_url (base_url raw)) as [b |] eqn:Eb;
    simpl; [| discriminate].
  destruct (timeout raw <=? 0) eqn:Et; simpl; [discriminate |].
  destruct (max_rows raw <=? 0) eqn:Em; simpl; [discriminate |].
  destruct (10000 <? max_rows raw) eqn:Em2; simpl; [discriminate |].
  intro H. injection H as <-. simpl.
  destruct (validated_url_has_no_trailing_slash _ _ Eb) as (_ & Hs & _).
  repeat split; try assumption; lia.
Qed.

Lemma constructed_config_witness :
  ConfigPy.validate_base_url "http://localhost:8983/solr/"
  = Ok "http://localhost:8983/solr"
  /\ endswith_char slash "http://localhost:8983/solr" = false
  /\ 0 < 30 /\ 0 < 1000 <= 10000
  /\ ("test", @None string, @None string, 30, true, 1000, "text", 100, true)
     = ("test", @None string, @None string, 30, true, 1000, "text", 100,
        true).
Proof.
  apply (constructed_config_is_valid
           (raw_config "http://localhost:8983/solr/" 30 1000)
           (raw_config "http://localhost:8983/solr" 30 1000)).
  reflexivity.
Defined.

(** X24. With a constructed configuration a request without row count is
    sent with a row count between 1 and 100 that does not exceed the
    configured maximum. *)
Theorem default_rows_of_valid_config (raw cfg : SOLRConfig)
    (r : SearchRequest) :
  ConfigPy.SOLRConfig_new raw = Ok cfg ->
  q_rows r = None ->
  kwargs_ok (q_kwargs r) = true ->
  exists n,
    dict_get "rows" (build_search_params cfg r) = Some (PInt n)
    /\ 1 <= n <= 100 /\ n <= max_rows cfg.
Proof.
  intros Hc Hrows Hkw.
  destruct (constructed_config_is_valid _ _ Hc) as (_ & _ & _ & Hm & _).
  exists (Z.min (max_rows cfg) 100). split; [| lia].
  unfold build_search_params, set_highlighting. rewrite Hrows.
  split_ifs; dict_simpl;
    (rewrite dict_get_update_absent by now apply kwargs_ok_rows);
    reflexivity.
Qed.

Lemma default_rows_valid_witness :
  exists n,
    dict_get "rows" (build_search_params
                       (raw_config "http://localhost:8983/solr" 30 40)
                       (request "*:*")) = Some (PInt n)
    /\ 1 <= n <= 100
    /\ n <= max_rows (raw_config "http://localhost:8983/solr" 30 40).
Proof.
  apply (default_rows_of_valid_config
           (raw_config "http://localhost:8983/solr/" 30 40)
           (raw_config "http://localhost:8983/solr" 30 40)
           (request "*:*")); reflexivity.
Defined.

Lemma MCPConfig_new_ok (raw mc : ConfigPy.MCPConfig) :
  ConfigPy.MCPConfig_new raw = Ok mc ->
  1 <= ConfigPy.port raw <= 65535
  /\ In (ConfigPy.log_level mc) ConfigPy.valid_levels
  /\ ConfigPy.host mc = ConfigPy.host raw
  /\ ConfigPy.port mc = ConfigPy.port raw.
Proof.
  unfold ConfigPy.MCPConfig_new.
  destruct (ConfigPy.validate_port (ConfigPy.port raw)) as [p |] eqn:Ep;
    destruct (ConfigPy.validate_log_level (ConfigPy.log_level raw))
      as [l |] eqn:El;
    cbn [ConfigPy.failed app]; try discriminate.
  intro H. injection H as <-. cbn.
  unfold ConfigPy.validate_port in Ep.
  destruct ((1 <=? ConfigPy.port raw) && (ConfigPy.port raw <=? 65535))
    eqn:E; cbn [negb] in Ep; [| discriminate].
  apply andb_prop in E. destruct E as [E1 E2].
  unfold ConfigPy.validate_log_level in El.
  destruct (find _ ConfigPy.valid_levels) as [lv |] eqn:Ef;
    [| discriminate].
  injection El as <-.
  repeat split; try lia. exact (proj1 (find_some _ _ Ef)).
Qed.

Section FromEnv.
Variable getenv : string -> option string.

(** The arguments [from_env] constructs the SOLR section with, for
    parsed numbers [t], [m] and [l]. *)
Let raw_solr (t m l : Z) : SOLRConfig :=
  {| base_url := ConfigPy.getenv_or getenv "SOLR_BASE_URL"
                   "http://localhost:8983/solr";
     collection := ConfigPy.getenv_or getenv "SOLR_COLLECTION" EmptyString;
     username := ConfigPy.getenv_nonempty getenv "SOLR_USERNAME";
     password := ConfigPy.getenv_nonempty getenv "SOLR_PASSWORD";
     timeout := t;
     verify_ssl := ConfigPy.is_true
                     (ConfigPy.getenv_or getenv "SOLR_VERIFY_SSL" "true");
     max_rows := m;
     default_search_field :=
       ConfigPy.getenv_or getenv "SOLR_DEFAULT_SEARCH_FIELD" "text";
     facet_limit := l;
     highlight_enabled :=
       ConfigPy.is_true
         (ConfigPy.getenv_or getenv "SOLR_HIGHLIGHT_ENABLED" "true") |}.

Lemma from_env_ok_inv (cfg : ConfigPy.Config) :
  ConfigPy.from_env getenv = Ok cfg ->
  exists t m l p,
    py_int (ConfigPy.getenv_or getenv "SOLR_TIMEOUT" "30") = Ok t
    /\ py_int (ConfigPy.getenv_or getenv "SOLR_MAX_ROWS" "1000") = Ok m
    /\ py_int (ConfigPy.getenv_or getenv "SOLR_FACET_LIMIT" "100") = Ok l
    /\ ConfigPy.SOLRConfig_new (raw_solr t m l) = Ok (ConfigPy.solr cfg)
    /\ truthy_str (collection (ConfigPy.solr cfg)) = true
    /\ py_int (ConfigPy.getenv_or getenv "MCP_SERVER_PORT" "8080") = Ok p
    /\ ConfigPy.MCPConfig_new
         {| ConfigPy.host :=
              ConfigPy.getenv_or getenv "MCP_SERVER_HOST" "localhost";
            ConfigPy.port := p;
            ConfigPy.log_level :=
              ConfigPy.getenv_or getenv "LOG_LEVEL" "INFO" |}
       = Ok (ConfigPy.mcp cfg).
Proof.
  unfold ConfigPy.from_env. intro H.
  destruct (py_int (ConfigPy.getenv_or getenv "SOLR_TIMEOUT" "30"))
    as [t |]; cbn [rbind] in H; [| discriminate].
  destruct (py_int (ConfigPy.getenv_or getenv "SOLR_MAX_ROWS" "1000"))
    as [m |]; cbn [rbind] in H; [| discriminate].
  destruct (py_int (ConfigPy.getenv_or getenv "SOLR_FACET_LIMIT" "100"))
    as [l |]; cbn [rbind] in H; [| discriminate].
  fold (raw_solr t m l) in H.
  destruct (ConfigPy.SOLRConfig_new (raw_solr t m l)) as [sc |] eqn:Es;
    cbn [rbind] in H; [| discriminate].
  destruct (truthy_str (collection sc)) eqn:Ec; cbn [negb] in H;
    [| discriminate].
  destruct (py_int (ConfigPy.getenv_or getenv "MCP_SERVER_PORT" "8080"))
    as [p |]; cbn [rbind] in H; [| discriminate].
  destruct (ConfigPy.MCPConfig_new _) as [mc |] eqn:Em;
    cbn [rbind] in H; [| discriminate].
  destruct (match ConfigPy.getenv_nonempty getenv "OLLAMA_BASE_URL" with
            | Some _ => _
            | None => _
            end) as [oc |]; cbn [rbind] in H; [| discriminate].
  injection H as <-. simpl.
  exists t, m, l, p. repeat split; assumption.
Qed.

(** X25. A configuration loaded from the environment names a collection,
    the one of [SOLR_COLLECTION], which is therefore required and not
    empty; its base URL has no trailing slash, its timeout is positive,
    its maximum of rows lies between 1 and 10000, its port between 1 and
    65535, and its log level is one of the five level names in capitals. *)
Theorem loaded_config_is_valid (cfg : ConfigPy.Config) :
  ConfigPy.from_env getenv = Ok cfg ->
  getenv "SOLR_COLLECTION" = Some (collection (ConfigPy.solr cfg))
  /\ collection (ConfigPy.solr cfg) <> EmptyString
  /\ endswith_char slash (base_url (ConfigPy.solr cfg)) = false
  /\ 0 < timeout (ConfigPy.solr cfg)
  /\ 0 < max_rows (ConfigPy.solr cfg) <= 10000
  /\ 1 <= ConfigPy.port (ConfigPy.mcp cfg) <= 65535
  /\ In (ConfigPy.log_level (ConfigPy.mcp cfg)) ConfigPy.valid_levels.
Proof.
  intro H.
  destruct (from_env_ok_inv cfg H)
    as (t & m & l & p & _ & _ & _ & Hs & Hc & _ & Hm).
  destruct (constructed_config_is_valid _ _ Hs)
    as (_ & Hurl & Ht & Hr & Heq).
  injection Heq as Hcoll _.
  assert (Hcoll' : getenv "SOLR_COLLECTION"
                   = Some (collection (ConfigPy.solr cfg))).
  { rewrite Hcoll in Hc |- *. simpl in Hc |- *.
    unfold ConfigPy.getenv_or in *.
    destruct (getenv "SOLR_COLLECTION"); [reflexivity | discriminate]. }
  split; [exact Hcoll' |].
  split; [intro E; rewrite E in Hc; discriminate |].
  split; [exact Hurl |]. split; [exact Ht |]. split; [exact Hr |].
  destruct (MCPConfig_new_ok _ _ Hm) as (Hp & Hl & _ & Hport).
  rewrite Hport. split; assumption.
Qed.

(** X26. The credentials of a loaded configuration are those of
    [SOLR_USERNAME] and [SOLR_PASSWORD] when both are set and not empty;
    otherwise the client will connect without authentication. *)
Theorem loaded_credentials (cfg : ConfigPy.Config) :
  ConfigPy.from_env getenv = Ok cfg ->
  auth_of (ConfigPy.solr cfg)
  = match getenv "SOLR_USERNAME", getenv "SOLR_PASSWORD" with
    | Some u, Some p =>
        if truthy_str u && truthy_str p then Some (u, p) else None
    | _, _ => None
    end.
Proof.
  intro H.
  destruct (from_env_ok_inv cfg H)
    as (t & m & l & p & _ & _ & _ & Hs & _).
  destruct (constructed_config_is_valid _ _ Hs) as (_ & _ & _ & _ & Heq).
  injection Heq as _ Hu Hp _.
  unfold auth_of. rewrite Hu, Hp. simpl.
  unfold ConfigPy.getenv_nonempty.
  destruct (getenv "SOLR_USERNAME") as [[| a u] |],
    (getenv "SOLR_PASSWORD") as [[| b pw] |]; reflexivity.
Qed.



End FromEnv.

(** X28. With [SOLR_COLLECTION] as the only variable set, the loaded
    configuration is the one of the field defaults: the values
    [from_env] falls back to are those the models declare. *)
Theorem from_env_defaults (getenv : string -> option string) (c : string) :
  getenv "SOLR_COLLECTION" = Some c ->
  c <> EmptyString ->
  (forall k, k <> "SOLR_COLLECTION" -> getenv k = None) ->
  ConfigPy.from_env getenv
  = Ok {| ConfigPy.solr := default_config c;
          ConfigPy.mcp := default_mcp;
          ConfigPy.ollama := None |}.
Proof.
  intros Hc Hne Hnone.
  unfold ConfigPy.from_env, ConfigPy.getenv_or, ConfigPy.getenv_nonempty.
  rewrite Hc.
  rewrite !Hnone by (intro E; discriminate E).
  destruct c as [| a c]; [contradiction |].
  vm_compute. reflexivity.
Qed.

Lemma loaded_config_witness :
  ConfigPy.env_of complete_env "SOLR_COLLECTION"
  = Some (collection (ConfigPy.solr complete_config))
  /\ collection (ConfigPy.solr complete_config) <> EmptyString
  /\ endswith_char slash (base_url (ConfigPy.solr complete_config)) = false
  /\ 0 < timeout (ConfigPy.solr complete_config)
  /\ 0 < max_rows (ConfigPy.solr complete_config) <= 10000
  /\ 1 <= ConfigPy.port (ConfigPy.mcp complete_config) <= 65535
  /\ In (ConfigPy.log_level (ConfigPy.mcp complete_config))
       ConfigPy.valid_levels.
Proof.
  apply (loaded_config_is_valid (ConfigPy.env_of complete_env)
           complete_config).
  vm_compute. reflexivity.
Defined.

Lemma loaded_credentials_witness :
  auth_of (ConfigPy.solr complete_config) = None.
Proof.
  apply (loaded_credentials (ConfigPy.env_of complete_env) complete_config).
  vm_compute. reflexivity.
Defined.


Lemma from_env_defaults_witness :
  ConfigPy.from_env
    (fun k => if String.eqb k "SOLR_COLLECTION" then Some "docs" else None)
  = Ok {| ConfigPy.solr := default_config "docs";
          ConfigPy.mcp := default_mcp;
          ConfigPy.ollama := None |}.
Proof.
  apply (from_env_defaults
           (fun k => if String.eqb k "SOLR_COLLECTION" then Some "docs"
                     else None) "docs").
  - reflexivity.
  - discriminate.
  - intros k Hk. destruct (String.eqb k "SOLR_COLLECTION") eqn:E;
      [| reflexivity].
    apply String.eqb_eq in E. contradiction.
Defined.
